(** * reading-rewards-backend: helpers and quiz routes

    A shallow embedding of
      - [computeCurrentLexileMeasure] and [computeMatchScore] (helpers),
      - the [submitQuiz] and [setComprehensionForSubmission] handlers
        (src/routes/quizzes.ts),
    followed by the properties the specification states about them.

    Modelling conventions.
      - A JavaScript [number] that is known to be finite is an exact rational
        ([Q]); the rounding of IEEE doubles is outside the model.  Where the
        code can produce [NaN] out of finite inputs ([_.mean] of an empty
        array) the result type is [number], which adds [NaN].
      - An ISO-8601 timestamp, as produced by [new Date().toISOString()], is
        the number of milliseconds since the epoch ([Z]).  Those strings have
        a fixed width and are in UTC, so the order lodash sorts them by is the
        chronological order.
      - A plain object used as a dictionary is a [gmap string _].
      - An [async] handler is a computation in the monad [M], which records
        the calls made to the collaborators and stops at the first [throw]. *)

From Stdlib Require Import ZArith QArith Lia Lqa Permutation Sorted.
From stdpp Require Import base gmap strings list.

Set Default Proof Using "Type".

(* ================================================================== *)
(** * Numbers *)

(** A JavaScript number: a finite value or [NaN].  Infinities are left out:
    the functions embedded below multiply finite values and divide by a
    non-zero literal or by an array length that was tested first. *)
Inductive number : Type :=
  | Num (q : Q)
  | NaN.

(** [a * b]; [NaN] is absorbing. *)
Definition num_mul (a b : number) : number :=
  match a, b with
  | Num x, Num y => Num (x * y)%Q
  | _, _ => NaN
  end.

(** [a / d] for a non-zero literal [d]. *)
Definition num_div_lit (a : number) (d : Q) : number :=
  match a with
  | Num x => Num (x / d)%Q
  | NaN => NaN
  end.

(** [lo <= x && x <= hi]: every comparison with [NaN] is false. *)
Definition num_between (lo hi : Q) (x : number) : Prop :=
  match x with
  | Num q => (lo <= q /\ q <= hi)%Q
  | NaN => False
  end.

(** [a <= b] on numbers, false as soon as one side is [NaN]. *)
Definition num_le (a b : number) : Prop :=
  match a, b with
  | Num x, Num y => (x <= y)%Q
  | _, _ => False
  end.

(** [a === b] on numbers: [NaN] differs from everything, itself included. *)
Definition num_eq (a b : number) : Prop :=
  match a, b with
  | Num x, Num y => (x == y)%Q
  | _, _ => False
  end.

(** The length of an array as a number. *)
Definition len_Q {A : Type} (l : list A) : Q := inject_Z (Z.of_nat (length l)).

(* ================================================================== *)
(** * The lodash functions the sources call *)

Module Lodash.

Section OrderBy.
Context {A : Type} (key : A -> Z).

(** One step of a stable descending sort: [x] was in front of every
  element of [l] in the input, so it stays in front of those with the
  same key. *)
Fixpoint insert_desc (x : A) (l : list A) : list A :=
  match l with
  | [] => [x]
  | y :: l' =>
    if (key x <? key y)%Z then y :: insert_desc x l' else x :: y :: l'
  end.

(** [_.orderBy(collection, key, 'desc')]: a stable sort, largest first. *)
Fixpoint orderBy_desc (l : list A) : list A :=
  match l with
  | [] => []
  | x :: l' => insert_desc x (orderBy_desc l')
  end.
End OrderBy.

(** [baseSum]: [result] is undefined until the first element is seen, then
  the elements are added from left to right. *)
Definition baseSum (array : list Q) : option Q :=
  match array with
  | [] => None
  | x :: rest => Some (fold_left Qplus rest x)
  end.

(** [_.mean(array)]: [length ? baseSum(array) / length : NaN]. *)
Definition mean (array : list Q) : number :=
  match baseSum array with
  | Some s => Num (s / len_Q array)%Q
  | None => NaN
  end.

(** [_.reduce(collection, iteratee, accumulator)]. *)
Definition reduce {A B : Type} (collection : list A) (iteratee : B -> A -> B)
  (accumulator : B) : B :=
  fold_left iteratee collection accumulator.

(** [_.find(collection, { passed: true })] and the like: the first element
  that satisfies the predicate, [None] for [undefined]. *)
Definition find {A : Type} (p : A -> bool) (collection : list A) : option A :=
  List.find p collection.

End Lodash.

(* ================================================================== *)
(** * helpers: the lexile calibrator and the match scorer *)

(** [IBookReview], as far as the calibrator reads it. *)
Module BookReview.
Record IBookReview : Type := {
  book_lexile_measure : Q;
  comprehension : Z;
  date_submitted : Z
}.
End BookReview.
Export BookReview (IBookReview).

(** [GenreInterestMap]: genre id to interest level. *)
Abbreviation GenreInterestMap := (gmap string Q).

(** [IBook], as far as the scorer reads it. *)
Record IBook : Type := {
  genres : list string;
  amazon_popularity : Q
}.

Definition adjustedLexileSignal (review : IBookReview) : Q :=
  (BookReview.book_lexile_measure review
   + 50 * (inject_Z (BookReview.comprehension review) - 4))%Q.

Definition computeCurrentLexileMeasure (initialLexileMeasure : Q)
    (bookReviews : list IBookReview) : Q :=
  if (length bookReviews <? 3)%nat then initialLexileMeasure
  else
    let recentReviews :=
      take 3 (Lodash.orderBy_desc BookReview.date_submitted bookReviews) in
    (Lodash.reduce recentReviews
       (fun total review => total + adjustedLexileSignal review) 0
     / len_Q recentReviews)%Q.

(** The callback of [book.genres.map]: the interest on file, or 3. *)
Definition interestInGenre (genreInterests : GenreInterestMap)
    (genreId : string) : Q :=
  match genreInterests !! genreId with
  | Some interest => interest
  | None => 3%Q
  end.

Definition computeMatchScore (genreInterests : GenreInterestMap)
    (book : IBook) : number :=
  let userInterestsInGenres :=
    List.map (interestInGenre genreInterests) (genres book) in
  let interestFactor := Lodash.mean userInterestsInGenres in
  num_div_lit (num_mul (Num (amazon_popularity book)) interestFactor) 20.

(** ** The same two functions, as the specification words them *)

(** The arithmetic mean of a non-empty list. *)
Definition arith_mean (l : list Q) : Q :=
  (fold_right Qplus 0 l / len_Q l)%Q.

(** Popularity times mean interest over 20. *)
Definition match_score_spec (genreInterests : GenreInterestMap)
    (book : IBook) : Q :=
  (amazon_popularity book
   * arith_mean (List.map (interestInGenre genreInterests) (genres book))
   / 20)%Q.

(** [top] holds the reviews of [all] with the largest dates, latest first. *)
Definition most_recent_of (top all : list IBookReview) : Prop :=
  exists rest,
    all ≡ₚ top ++ rest /\
    StronglySorted
      (fun a b => (BookReview.date_submitted b <= BookReview.date_submitted a)%Z)
      top /\
    Forall
      (fun r =>
         Forall
           (fun t => (BookReview.date_submitted r <= BookReview.date_submitted t)%Z)
           top)
      rest.

(* ================================================================== *)
(** * routes/quizzes: data *)

(** Modelled from the spec: models/user is not among the sources; the routes
    name the student and the administrator role. *)
Inductive UserType : Type :=
  | STUDENT
  | ADMIN.

#[global] Instance UserType_eq_dec : EqDecision UserType.
Proof. solve_decision. Defined.

(** [IUser], as far as the routes read it. *)
Module User.
Record IUser : Type := {
  _id : string;
  type : UserType
}.
End User.
Export User (IUser).

(** [req.authToken], set by [Middle.authenticate]. *)
Module AuthToken.
Record t : Type := {
  _id : string;
  type : UserType
}.
End AuthToken.

(** An untyped JSON payload ([joi.any()]); [JsUndefined] is what indexing
    past the end of an array gives. *)
#[warnings="-register-all"] Inductive JsValue : Type :=
  | JsUndefined
  | JsNull
  | JsBool (b : bool)
  | JsNumber (q : Q)
  | JsString (s : string)
  | JsArray (items : list JsValue)
  | JsObject (fields : list (string * JsValue)).

(** A question: its tag, its prompt and the fields its variant owns. *)
Module Question.
Record IQuestion : Type := {
  type : string;
  prompt : string;
  variant_fields : JsValue
}.
End Question.
Export Question (IQuestion).

Module Quiz.
Record IQuiz : Type := {
  _id : string;
  questions : list IQuestion;
  book_id : option string;
  date_created : Z
}.
End Quiz.
Export Quiz (IQuiz).

(** The body of a submission request, once [quizSubmissionSchema] accepted
    it. *)
Module SubmissionBody.
Record IQuizSubmissionBody : Type := {
  quiz_id : string;
  student_id : string;
  book_id : string;
  answers : list JsValue
}.
End SubmissionBody.
Export SubmissionBody (IQuizSubmissionBody).

Module Submission.
Record IQuizSubmission : Type := {
  _id : option string;
  quiz_id : string;
  student_id : string;
  book_id : string;
  answers : list JsValue;
  date_created : Z;
  score : Q;
  passed : bool;
  comprehension : option Z
}.
End Submission.
Export Submission (IQuizSubmission).

(** [IRequest<T>]: the authenticated principal, the route parameter and the
    validated body. *)
Record IRequest (T : Type) : Type := {
  authToken : AuthToken.t;
  params : string;
  body : T
}.
Arguments authToken {T} _.
Arguments params {T} _.
Arguments body {T} _.

(** The text of an error, with the values its template interpolates. *)
Inductive Message : Type :=
  | StudentsCannotSubmitForOthers
  | UserDoesNotExist (student_id : string)
  | UserIsNotAStudent (student_id : string)
  | MustWaitTill (mustWaitTill : Z)
  | AlreadyPassedQuizForBook (book_id : string)
  | ExhaustedAllAttempts (book_id : string)
  | NoBookWithId (book_id : string)
  | NoQuizWithId (quiz_id : string)
  | AnswerCountMismatch (questions answers : nat)
  | InvalidAnswerSchema (prompt type errorMsg : string)
  | SubmissionDoesNotExist (submissionId : string)
  | StudentsCannotUpdateComprehension.

(** restify-errors, and the [TypeError] of reading a field of [undefined]. *)
Inductive HttpError : Type :=
  | BadRequestError (m : Message)
  | ForbiddenError (m : Message)
  | ResourceNotFoundError (m : Message)
  | TypeError.

(* ================================================================== *)
(** * routes/quizzes: collaborators *)

(** The repositories answer from a snapshot taken when the request comes
    in; [None] stands for a [null] document. *)
Class IUserData : Type := {
  getUserById : string -> option IUser
}.

Class IBookData : Type := {
  getBook : string -> option IBook
}.

Class IQuizData : Type := {
  getQuizById : string -> option IQuiz;
  getSubmissionById : string -> option IQuizSubmission;
  getSubmissionsForStudent : string -> list IQuizSubmission;
  (** what the two writes resolve to *)
  submitQuiz_saved : IQuizSubmission -> IQuizSubmission;
  updateQuizSubmission_saved : IQuizSubmission -> IQuizSubmission
}.

(** [QuizGraderInstance]; [None] is the [null] of a valid schema. *)
Class QuizGrader : Type := {
  isAnswerSchemaValid : string -> JsValue -> option string;
  gradeQuiz : IQuiz -> list JsValue -> Q
}.

(** ../constants *)
Class Constants : Type := {
  PassingQuizGrade : Q;
  MaxNumQuizAttempts : Z;
  MinHoursBetweenBookQuizAttempt : Z
}.

(** The two readings of the clock a submission makes: [moment()] in the
    cooldown test and [new Date()] when the submission is built. *)
Class Clock : Type := {
  moment_now : Z;
  Date_now : Z
}.

(* ================================================================== *)
(** * routes/quizzes: the handler monad *)

(** A call to a collaborator, as it appears in the trace of a request. *)
Inductive Call : Type :=
  | Call_getUserById (id : string)
  | Call_getSubmissionsForStudent (id : string)
  | Call_moment
  | Call_getBook (id : string)
  | Call_getQuizById (id : string)
  | Call_isAnswerSchemaValid (type : string) (answer : JsValue)
  | Call_gradeQuiz (quiz : IQuiz) (answers : list JsValue)
  | Call_new_Date
  | Call_submitQuiz (quizSubmission : IQuizSubmission)
  | Call_getSubmissionById (id : string)
  | Call_updateQuizSubmission (updatedSubmission : IQuizSubmission).

(** How the promise of a handler settles. *)
Inductive Settled (A : Type) : Type :=
  | Resolved (a : A)
  | Rejected (e : HttpError).
Arguments Resolved {A} a.
Arguments Rejected {A} e.

(** A handler: the calls it made, in order, and how it settled. *)
Definition M (A : Type) : Type := (list Call * Settled A)%type.

Definition ret {A : Type} (a : A) : M A := ([], Resolved a).

Definition throw {A : Type} (e : HttpError) : M A := ([], Rejected e).

(** [await c]: the call is recorded and its value handed on. *)
Definition await {A : Type} (c : Call) (value : A) : M A := ([c], Resolved value).

Definition bind {A B : Type} (m : M A) (k : A -> M B) : M B :=
  match m with
  | (t, Resolved a) => let (t', r) := k a in (t ++ t', r)
  | (t, Rejected e) => (t, Rejected e)
  end.

Definition trace {A : Type} (m : M A) : list Call := fst m.
Definition settled {A : Type} (m : M A) : Settled A := snd m.

Declare Scope handler_scope.
Delimit Scope handler_scope with handler.
Notation "x <- m ;; k" := (bind m (fun x => k))
  (at level 100, m at next level, right associativity) : handler_scope.
Notation "m ;; k" := (bind m (fun _ => k))
  (at level 100, right associativity) : handler_scope.

(** Milliseconds in [h] hours: [moment(d).add(h, 'h')] is [d + hours h]. *)
Definition hours (h : Z) : Z := (h * 3600000)%Z.

(* ================================================================== *)
(** * routes/quizzes: the handlers *)

Section QuizRoutes.
Context {userData : IUserData} {quizData : IQuizData} {bookData : IBookData}.
Context {QuizGraderInstance : QuizGrader} {constants : Constants} {clock : Clock}.

Local Open Scope handler_scope.

(** The middleware in front of [submitQuiz]: a student submits for
    themselves only. *)
Definition submitQuiz_identity (req : IRequest IQuizSubmissionBody) : M unit :=
  if decide (AuthToken.type (authToken req) = STUDENT
             /\ AuthToken._id (authToken req) <> SubmissionBody.student_id (body req))
  then throw (BadRequestError StudentsCannotSubmitForOthers)
  else ret tt.

(** verify user exists *)
Definition verifyUser (student_id : string) : M unit :=
  user <- await (Call_getUserById student_id) (getUserById student_id) ;;
  match user with
  | None => throw (BadRequestError (UserDoesNotExist student_id))
  | Some user =>
      if decide (User.type user <> STUDENT)
      then throw (BadRequestError (UserIsNotAStudent student_id))
      else ret tt
  end.

(** check user did not recently submit a quiz *)
Definition checkCooldown (submissions : list IQuizSubmission) : M unit :=
  match submissions with
  | [] => ret tt
  | _ :: _ =>
      match Lodash.orderBy_desc Submission.date_created submissions with
      | [] => throw TypeError
      | mostRecentSubmission :: _ =>
          let mustWaitTill :=
            (Submission.date_created mostRecentSubmission
             + hours MinHoursBetweenBookQuizAttempt)%Z in
          now <- await Call_moment moment_now ;;
          if (now <? mustWaitTill)%Z
          then throw (ForbiddenError (MustWaitTill mustWaitTill))
          else ret tt
      end
  end.

(** verify user has not already submitted quiz for book *)
Definition checkPrevSubmissionsForBook (submissions : list IQuizSubmission)
    (book_id : string) : M unit :=
  let prevSubmissionsForBook :=
    filter (fun s => Submission.book_id s = book_id) submissions in
  match prevSubmissionsForBook with
  | [] => ret tt
  | _ :: _ =>
      match Lodash.find Submission.passed prevSubmissionsForBook with
      | Some _ => throw (ForbiddenError (AlreadyPassedQuizForBook book_id))
      | None =>
          if (MaxNumQuizAttempts <=? Z.of_nat (length prevSubmissionsForBook))%Z
          then throw (ForbiddenError (ExhaustedAllAttempts book_id))
          else ret tt
      end
  end.

(** verify book actually exists *)
Definition verifyBook (book_id : string) : M IBook :=
  book <- await (Call_getBook book_id) (getBook book_id) ;;
  match book with
  | None => throw (BadRequestError (NoBookWithId book_id))
  | Some book => ret book
  end.

(** verify quiz actually exists *)
Definition verifyQuiz (quiz_id : string) : M IQuiz :=
  quiz <- await (Call_getQuizById quiz_id) (getQuizById quiz_id) ;;
  match quiz with
  | None => throw (BadRequestError (NoQuizWithId quiz_id))
  | Some quiz => ret quiz
  end.

(** should be the same number of questions as answers *)
Definition checkAnswerCount (quiz : IQuiz) (answers : list JsValue) : M unit :=
  if decide (length (Quiz.questions quiz) <> length answers)
  then throw (BadRequestError
                (AnswerCountMismatch (length (Quiz.questions quiz)) (length answers)))
  else ret tt.

(** verify answer schema based on question types: the loop from index [i]
    on, [questions] being what is left of [quiz.questions]. *)
Fixpoint verifyAnswerSchemas (questions : list IQuestion) (i : nat)
    (answers : list JsValue) : M unit :=
  match questions with
  | [] => ret tt
  | question :: questions' =>
      let answer := default JsUndefined (answers !! i) in
      errorMsg <- await (Call_isAnswerSchemaValid (Question.type question) answer)
                        (isAnswerSchemaValid (Question.type question) answer) ;;
      match errorMsg with
      | Some errorMsg =>
          throw (BadRequestError
                   (InvalidAnswerSchema (Question.prompt question)
                      (Question.type question) errorMsg))
      | None => verifyAnswerSchemas questions' (S i) answers
      end
  end.

(** [_.assign({}, req.body, { date_created, score, passed })] *)
Definition buildSubmission (body : IQuizSubmissionBody) (date : Z)
    (quizScore : Q) : IQuizSubmission :=
  {| Submission._id := None;
     Submission.quiz_id := SubmissionBody.quiz_id body;
     Submission.student_id := SubmissionBody.student_id body;
     Submission.book_id := SubmissionBody.book_id body;
     Submission.answers := SubmissionBody.answers body;
     Submission.date_created := date;
     Submission.score := quizScore;
     Submission.passed := Qle_bool PassingQuizGrade quizScore;
     Submission.comprehension := None |}.

(** build submission and save to database *)
Definition gradeAndSave (body : IQuizSubmissionBody) (quiz : IQuiz)
    : M IQuizSubmission :=
  quizScore <- await (Call_gradeQuiz quiz (SubmissionBody.answers body))
                     (gradeQuiz quiz (SubmissionBody.answers body)) ;;
  date <- await Call_new_Date Date_now ;;
  let quizSubmission := buildSubmission body date quizScore in
  await (Call_submitQuiz quizSubmission) (submitQuiz_saved quizSubmission).

Definition submitQuiz (req : IRequest IQuizSubmissionBody) : M IQuizSubmission :=
  submitQuiz_identity req ;;
  verifyUser (SubmissionBody.student_id (body req)) ;;
  submissions <- await (Call_getSubmissionsForStudent (SubmissionBody.student_id (body req)))
                       (getSubmissionsForStudent (SubmissionBody.student_id (body req))) ;;
  checkCooldown submissions ;;
  checkPrevSubmissionsForBook submissions (SubmissionBody.book_id (body req)) ;;
  _ <- verifyBook (SubmissionBody.book_id (body req)) ;;
  quiz <- verifyQuiz (SubmissionBody.quiz_id (body req)) ;;
  checkAnswerCount quiz (SubmissionBody.answers (body req)) ;;
  verifyAnswerSchemas (Quiz.questions quiz) 0 (SubmissionBody.answers (body req)) ;;
  gradeAndSave (body req) quiz.

(** [_.assign({}, submission, { comprehension })] *)
Definition assignComprehension (submission : IQuizSubmission)
    (comprehension : Z) : IQuizSubmission :=
  {| Submission._id := Submission._id submission;
     Submission.quiz_id := Submission.quiz_id submission;
     Submission.student_id := Submission.student_id submission;
     Submission.book_id := Submission.book_id submission;
     Submission.answers := Submission.answers submission;
     Submission.date_created := Submission.date_created submission;
     Submission.score := Submission.score submission;
     Submission.passed := Submission.passed submission;
     Submission.comprehension := Some comprehension |}.

(** [req.params.submissionId] selects the submission, [req.body] is the
    rating [quizSubmissionComprehensionSchema] accepted. *)
Definition setComprehensionForSubmission (req : IRequest Z)
    : M IQuizSubmission :=
  let comprehension := body req in
  let submissionId := params req in
  submission <- await (Call_getSubmissionById submissionId)
                      (getSubmissionById submissionId) ;;
  match submission with
  | None => throw (ResourceNotFoundError (SubmissionDoesNotExist submissionId))
  | Some submission =>
      if decide (AuthToken.type (authToken req) = STUDENT
                 /\ AuthToken._id (authToken req) <> Submission.student_id submission)
      then throw (BadRequestError StudentsCannotUpdateComprehension)
      else
        let updatedSubmission := assignComprehension submission comprehension in
        await (Call_updateQuizSubmission updatedSubmission)
              (updateQuizSubmission_saved updatedSubmission)
  end.

End QuizRoutes.

(* ================================================================== *)
(** * The eligibility policy, as the specification words it *)

(** The checks of the policy; the existence check is split into its four
    failure reasons. *)
Inductive Check : Type :=
  | IdentityCheck
  | StudentExists
  | StudentRole
  | BookExists
  | QuizExists
  | CooldownCheck
  | AlreadyPassedCheck
  | AttemptExhaustionCheck
  | ShapeCheck
  | AnswerSchemaCheck.

#[global] Instance Check_eq_dec : EqDecision Check.
Proof. solve_decision. Defined.

(** Identity, existence, cooldown, already-passed, attempt-exhaustion, shape,
    schema: the order the specification lists. *)
Definition spec_order : list Check :=
  [IdentityCheck; StudentExists; StudentRole; BookExists; QuizExists;
   CooldownCheck; AlreadyPassedCheck; AttemptExhaustionCheck;
   ShapeCheck; AnswerSchemaCheck].

(** The order of the statements of [submitQuiz]. *)
Definition code_order : list Check :=
  [IdentityCheck; StudentExists; StudentRole;
   CooldownCheck; AlreadyPassedCheck; AttemptExhaustionCheck;
   BookExists; QuizExists; ShapeCheck; AnswerSchemaCheck].

(** The check a failure reason belongs to. *)
Definition check_of_error (e : HttpError) : option Check :=
  match e with
  | BadRequestError StudentsCannotSubmitForOthers => Some IdentityCheck
  | BadRequestError (UserDoesNotExist _) => Some StudentExists
  | BadRequestError (UserIsNotAStudent _) => Some StudentRole
  | BadRequestError (NoBookWithId _) => Some BookExists
  | BadRequestError (NoQuizWithId _) => Some QuizExists
  | ForbiddenError (MustWaitTill _) => Some CooldownCheck
  | ForbiddenError (AlreadyPassedQuizForBook _) => Some AlreadyPassedCheck
  | ForbiddenError (ExhaustedAllAttempts _) => Some AttemptExhaustionCheck
  | BadRequestError (AnswerCountMismatch _ _) => Some ShapeCheck
  | BadRequestError (InvalidAnswerSchema _ _ _) => Some AnswerSchemaCheck
  | _ => None
  end.

(** The largest [date_created] of a history, [None] when it is empty. *)
Definition latest_date_created (submissions : list IQuizSubmission) : option Z :=
  match submissions with
  | [] => None
  | s :: rest =>
      Some (fold_right Z.max (Submission.date_created s)
              (List.map Submission.date_created rest))
  end.

Section Policy.
Context {userData : IUserData} {quizData : IQuizData} {bookData : IBookData}.
Context {QuizGraderInstance : QuizGrader} {constants : Constants} {clock : Clock}.

(** The first answer, in quiz order, that its question's type rejects. *)
Fixpoint first_invalid_answer (pairs : list (IQuestion * JsValue))
    : option Message :=
  match pairs with
  | [] => None
  | (question, answer) :: rest =>
      match isAnswerSchemaValid (Question.type question) answer with
      | Some errorMsg =>
          Some (InvalidAnswerSchema (Question.prompt question)
                  (Question.type question) errorMsg)
      | None => first_invalid_answer rest
      end
  end.

(** [mustWaitUntil = most_recent_submission.date_created +
    MinHoursBetweenBookQuizAttempt], over the whole history of the
    student. *)
Definition mustWaitUntil (student_id : string) : option Z :=
  match latest_date_created (getSubmissionsForStudent student_id) with
  | Some latest => Some (latest + hours MinHoursBetweenBookQuizAttempt)%Z
  | None => None
  end.

(** The prior submissions of the student for one book. *)
Definition submissions_for_book (student_id book_id : string)
    : list IQuizSubmission :=
  filter (fun s => Submission.book_id s = book_id)
    (getSubmissionsForStudent student_id).

(** [fails c req] is the reason check [c] rejects [req] with, [None] when
    the check passes or has nothing to look at. *)
Definition fails (c : Check) (req : IRequest IQuizSubmissionBody)
    : option HttpError :=
  let b := body req in
  let student_id := SubmissionBody.student_id b in
  let book_id := SubmissionBody.book_id b in
  match c with
  | IdentityCheck =>
      if decide (AuthToken._id (authToken req) = student_id) then None
      else match AuthToken.type (authToken req) with
           | ADMIN => None
           | STUDENT => Some (BadRequestError StudentsCannotSubmitForOthers)
           end
  | StudentExists =>
      match getUserById student_id with
      | None => Some (BadRequestError (UserDoesNotExist student_id))
      | Some _ => None
      end
  | StudentRole =>
      match getUserById student_id with
      | Some user =>
          match User.type user with
          | STUDENT => None
          | ADMIN => Some (BadRequestError (UserIsNotAStudent student_id))
          end
      | None => None
      end
  | BookExists =>
      match getBook book_id with
      | None => Some (BadRequestError (NoBookWithId book_id))
      | Some _ => None
      end
  | QuizExists =>
      match getQuizById (SubmissionBody.quiz_id b) with
      | None => Some (BadRequestError (NoQuizWithId (SubmissionBody.quiz_id b)))
      | Some _ => None
      end
  | CooldownCheck =>
      match mustWaitUntil student_id with
      | Some t =>
          if (moment_now <? t)%Z then Some (ForbiddenError (MustWaitTill t))
          else None
      | None => None
      end
  | AlreadyPassedCheck =>
      if existsb Submission.passed (submissions_for_book student_id book_id)
      then Some (ForbiddenError (AlreadyPassedQuizForBook book_id))
      else None
  | AttemptExhaustionCheck =>
      if (MaxNumQuizAttempts
          <=? Z.of_nat (length (submissions_for_book student_id book_id)))%Z
      then Some (ForbiddenError (ExhaustedAllAttempts book_id))
      else None
  | ShapeCheck =>
      match getQuizById (SubmissionBody.quiz_id b) with
      | Some quiz =>
          if decide (length (SubmissionBody.answers b)
                     = length (Quiz.questions quiz))
          then None
          else Some (BadRequestError
                       (AnswerCountMismatch (length (Quiz.questions quiz))
                          (length (SubmissionBody.answers b))))
      | None => None
      end
  | AnswerSchemaCheck =>
      match getQuizById (SubmissionBody.quiz_id b) with
      | Some quiz =>
          BadRequestError
            <$> first_invalid_answer
                  (combine (Quiz.questions quiz) (SubmissionBody.answers b))
      | None => None
      end
  end.

(** The reason of the first check of [order] that fails. *)
Fixpoint first_failure (order : list Check)
    (req : IRequest IQuizSubmissionBody) : option HttpError :=
  match order with
  | [] => None
  | c :: order' =>
      match fails c req with
      | Some e => Some e
      | None => first_failure order' req
      end
  end.

(** Every check passes. *)
Definition eligible (req : IRequest IQuizSubmissionBody) : Prop :=
  forall c, fails c req = None.

(** The submission the specification has built once every check passed. *)
Definition new_submission (req : IRequest IQuizSubmissionBody)
    (quiz : IQuiz) : IQuizSubmission :=
  let quizScore := gradeQuiz quiz (SubmissionBody.answers (body req)) in
  {| Submission._id := None;
     Submission.quiz_id := SubmissionBody.quiz_id (body req);
     Submission.student_id := SubmissionBody.student_id (body req);
     Submission.book_id := SubmissionBody.book_id (body req);
     Submission.answers := SubmissionBody.answers (body req);
     Submission.date_created := Date_now;
     Submission.score := quizScore;
     Submission.passed := Qle_bool PassingQuizGrade quizScore;
     Submission.comprehension := None |}.

(** A policy that runs its checks in [order]: rejected with the first
    failure, otherwise resolved with what the repository saved. *)
Definition policy_outcome (order : list Check)
    (req : IRequest IQuizSubmissionBody) : option (Settled IQuizSubmission) :=
  match first_failure order req with
  | Some e => Some (Rejected e)
  | None =>
      match getQuizById (SubmissionBody.quiz_id (body req)) with
      | Some quiz => Some (Resolved (submitQuiz_saved (new_submission req quiz)))
      | None => None
      end
  end.

(** Whether the grader was called. *)
Definition graded (t : list Call) : Prop :=
  exists quiz answers, Call_gradeQuiz quiz answers ∈ t.

End Policy.

(** A call that only reads or validates: anything but grading, stamping and
    the two writes. *)
Definition check_call (c : Call) : Prop :=
  match c with
  | Call_gradeQuiz _ _ | Call_new_Date
  | Call_submitQuiz _ | Call_updateQuizSubmission _ => False
  | _ => True
  end.

(** How a check settles: rejected with its reason, or passed. *)
Definition check_result (failure : option HttpError) : Settled unit :=
  match failure with
  | Some e => Rejected e
  | None => Resolved tt
  end.

(** [m] made check calls only, then the calls [tail], and settled as [r]. *)
Definition runs_as {A : Type} (m : M A) (tail : list Call) (r : Settled A)
    : Prop :=
  exists t, m = (t ++ tail, r) /\ Forall check_call t.

Section Runs.
Context {userData : IUserData} {quizData : IQuizData} {bookData : IBookData}.
Context {QuizGraderInstance : QuizGrader} {constants : Constants} {clock : Clock}.

(** The calls that follow the checks of an eligible request. *)
Definition grading_calls (req : IRequest IQuizSubmissionBody) (quiz : IQuiz)
    : list Call :=
  [Call_gradeQuiz quiz (SubmissionBody.answers (body req));
   Call_new_Date;
   Call_submitQuiz (new_submission req quiz)].

(** What a run of the policy looks like when [failure] is its first
    failure: rejected with it after check calls only, or, without a
    failure, graded, stamped and saved after the checks. *)
Definition settles_as (req : IRequest IQuizSubmissionBody)
    (failure : option HttpError) (m : M IQuizSubmission) : Prop :=
  match failure with
  | Some e => runs_as m [] (Rejected e)
  | None =>
      exists quiz,
        getQuizById (SubmissionBody.quiz_id (body req)) = Some quiz
        /\ runs_as m (grading_calls req quiz)
             (Resolved (submitQuiz_saved (new_submission req quiz)))
  end.
End Runs.

(* ================================================================== *)
(** * A small deployment, for concrete runs *)

Module Fixtures.

Definition alice : IUser := {| User._id := "alice"; User.type := STUDENT |}.

Definition alice_token : AuthToken.t :=
  {| AuthToken._id := "alice"; AuthToken.type := STUDENT |}.
Definition bob_token : AuthToken.t :=
  {| AuthToken._id := "bob"; AuthToken.type := STUDENT |}.
Definition admin_token : AuthToken.t :=
  {| AuthToken._id := "root"; AuthToken.type := ADMIN |}.

Definition hobbit : IBook :=
  {| genres := ["fantasy"]; amazon_popularity := 5 |}.
Definition pamphlet : IBook :=
  {| genres := []; amazon_popularity := 4 |}.
Definition keen_reader : GenreInterestMap := {[ "fantasy" := 4%Q ]}.

Definition review (measure : Q) (rating date : Z) : IBookReview :=
  {| BookReview.book_lexile_measure := measure;
     BookReview.comprehension := rating;
     BookReview.date_submitted := date |}.
Definition three_reviews : list IBookReview :=
  [review 600 4 10; review 700 4 30; review 800 4 20].

Definition question1 : IQuestion :=
  {| Question.type := "mc"; Question.prompt := "Who is Bilbo?";
     Question.variant_fields := JsNull |}.
Definition quiz1 : IQuiz :=
  {| Quiz._id := "quiz1"; Quiz.questions := [question1];
     Quiz.book_id := Some "hobbit"; Quiz.date_created := 0 |}.

(** The two clocks below are read one hour and twenty-five hours after
    this. *)
Definition T : Z := 1000.

Definition attempt (book_id : string) (passed : bool) : IQuizSubmission :=
  {| Submission._id := Some "s1"; Submission.quiz_id := "quiz1";
     Submission.student_id := "alice"; Submission.book_id := book_id;
     Submission.answers := [JsNumber 1]; Submission.date_created := T;
     Submission.score := if passed then 100 else 0;
     Submission.passed := passed; Submission.comprehension := None |}.

Definition users : IUserData :=
  {| getUserById id := if decide (id = "alice") then Some alice else None |}.

(** Only the hobbit is on the shelf. *)
Definition books : IBookData :=
  {| getBook id := if decide (id = "hobbit") then Some hobbit else None |}.

(** A repository in which alice has the history [history]. *)
Definition quizzes (history : list IQuizSubmission) : IQuizData :=
  {| getQuizById id := if decide (id = "quiz1") then Some quiz1 else None;
     getSubmissionById id :=
       List.find (fun s => bool_decide (Submission._id s = Some id)) history;
     getSubmissionsForStudent id :=
       if decide (id = "alice") then history else [];
     submitQuiz_saved s := s;
     updateQuizSubmission_saved s := s |}.

Definition grader : QuizGrader :=
  {| isAnswerSchemaValid _ _ := None; gradeQuiz _ _ := 100%Q |}.

Definition config : Constants :=
  {| PassingQuizGrade := 80; MaxNumQuizAttempts := 3;
     MinHoursBetweenBookQuizAttempt := 24 |}.

Definition clock_after (h : Z) : Clock :=
  {| moment_now := T + hours h; Date_now := T + hours h + 1 |}.

Definition submission_request (token : AuthToken.t) (book_id : string)
    : IRequest IQuizSubmissionBody :=
  {| authToken := token; params := "";
     body := {| SubmissionBody.quiz_id := "quiz1";
                SubmissionBody.student_id := "alice";
                SubmissionBody.book_id := book_id;
                SubmissionBody.answers := [JsNumber 1] |} |}.

Definition comprehension_request (token : AuthToken.t) : IRequest Z :=
  {| authToken := token; params := "s1"; body := 5%Z |}.

(** [submitQuiz] for a request that comes in [h] hours after [T], alice
    having the history [history]; and the policy of the specification on
    the same request. *)
Definition submit (history : list IQuizSubmission) (h : Z)
    (req : IRequest IQuizSubmissionBody) : M IQuizSubmission :=
  @submitQuiz users (quizzes history) books grader config (clock_after h) req.

Definition spec_policy (history : list IQuizSubmission) (h : Z)
    (req : IRequest IQuizSubmissionBody) : option (Settled IQuizSubmission) :=
  @policy_outcome users (quizzes history) books grader config (clock_after h)
    spec_order req.

Definition rate (history : list IQuizSubmission) (req : IRequest Z)
    : M IQuizSubmission :=
  @setComprehensionForSubmission (quizzes history) req.

End Fixtures.

(* ================================================================== *)
(** * helpers: the lexile range *)

(** [ILexileRange] *)
Module LexileRange.
Record ILexileRange : Type := {
  min : Q;
  max : Q
}.
End LexileRange.
Export LexileRange (ILexileRange).

Definition getLexileRange (measure : Q) : ILexileRange :=
  {| LexileRange.min := (measure - 100)%Q;
     LexileRange.max := (measure + 50)%Q |}.

(** Two numbers a caller cannot tell apart: equal values, or [NaN] twice. *)
Definition num_same (a b : number) : Prop :=
  match a, b with
  | Num x, Num y => (x == y)%Q
  | NaN, NaN => True
  | _, _ => False
  end.

(** ../constants with another [MaxNumQuizAttempts]. *)
Definition with_max_attempts (c : Constants) (attempts : Z) : Constants :=
  {| PassingQuizGrade := @PassingQuizGrade c;
     MaxNumQuizAttempts := attempts;
     MinHoursBetweenBookQuizAttempt := @MinHoursBetweenBookQuizAttempt c |}.

(** The call that validates the answer to a question. *)
Definition validation_call (pair : IQuestion * JsValue) : Call :=
  Call_isAnswerSchemaValid (Question.type (fst pair)) (snd pair).

(* ================================================================== *)
(** * routes/quizzes: the quiz routes of the administrator *)

(** These are the handlers behind [Middle.authenticate],
    [Middle.authorize([UserType.ADMIN])] and [Middle.valBody]: a request is
    one that the middleware let through. *)

(** [IQuizBody]: the body [inputQuizSchema] accepted. *)
Module QuizBody.
Record IQuizBody : Type := {
  questions : list IQuestion;
  book_id : option string
}.
End QuizBody.
Export QuizBody (IQuizBody).

(** The document [createQuiz] hands to the repository: the body and its
    [date_created], the id being the repository's to give. *)
Module NewQuiz.
Record t : Type := {
  questions : list IQuestion;
  book_id : option string;
  date_created : Z
}.
End NewQuiz.

Inductive QuizMessage : Type :=
  | NoBookExists (book_id : option string)
  | NotAValidQuestion (prompt type errorMsg : string)
  | NoQuizWasUpdated
  | NoQuizWasDeleted.

Inductive QuizError : Type :=
  | QuizBadRequestError (m : QuizMessage)
  | QuizResourceNotFoundError (m : QuizMessage).

(** The part of [IQuizData] the quiz routes use; [None] stands for [null]
    (for [updateQuiz_result], for any empty result). *)
Class IQuizStore : Type := {
  createQuiz_saved : NewQuiz.t -> IQuiz;
  updateQuiz_result : IQuiz -> option IQuiz;
  deleteQuiz_result : string -> option IQuiz;
  getQuizForBook_result : string -> option IQuiz;
  getGenericQuiz_result : option IQuiz
}.

(** [QuizGraderInstance.isQuestionSchemaValid]; [None] is [null]. *)
Class QuestionSchemas : Type := {
  isQuestionSchemaValid : IQuestion -> option string
}.

Inductive QuizCall : Type :=
  | QCall_getBook (id : string)
  | QCall_isQuestionSchemaValid (question : IQuestion)
  | QCall_new_Date
  | QCall_createQuiz (newQuiz : NewQuiz.t)
  | QCall_updateQuiz (quiz : IQuiz)
  | QCall_deleteQuiz (quizId : string)
  | QCall_getQuizForBook (bookId : string)
  | QCall_getGenericQuiz.

Inductive QuizSettled (A : Type) : Type :=
  | QResolved (a : A)
  | QRejected (e : QuizError).
Arguments QResolved {A} a.
Arguments QRejected {A} e.

(** The handler monad of these routes: the calls made, and the outcome. *)
Definition MQ (A : Type) : Type := (list QuizCall * QuizSettled A)%type.

Definition qret {A : Type} (a : A) : MQ A := ([], QResolved a).
Definition qthrow {A : Type} (e : QuizError) : MQ A := ([], QRejected e).
Definition qawait {A : Type} (c : QuizCall) (value : A) : MQ A :=
  ([c], QResolved value).
Definition qbind {A B : Type} (m : MQ A) (k : A -> MQ B) : MQ B :=
  match m with
  | (t, QResolved a) => let (t', r) := k a in (t ++ t', r)
  | (t, QRejected e) => (t, QRejected e)
  end.

Declare Scope quiz_scope.
Delimit Scope quiz_scope with quiz.
Notation "x <- m ;; k" := (qbind m (fun x => k))
  (at level 100, m at next level, right associativity) : quiz_scope.
Notation "m ;; k" := (qbind m (fun _ => k))
  (at level 100, right associativity) : quiz_scope.

Section QuizAdminRoutes.
Context {quizStore : IQuizStore} {bookData : IBookData}.
Context {questionSchemas : QuestionSchemas} {clock : Clock}.

Local Open Scope quiz_scope.

(** [if (quiz.book_id)]: an absent id and the empty string are falsy. *)
Definition truthy_id (book_id : option string) : option string :=
  match book_id with
  | Some id => if decide (id = "") then None else Some id
  | None => None
  end.

(** [isBookValid(quiz)] reads [quiz.book_id] only and is given that field,
    its two callers having bodies of different types. *)
Definition isBookValid (book_id : option string) : MQ bool :=
  match truthy_id book_id with
  | Some id =>
      book <- qawait (QCall_getBook id) (getBook id) ;;
      qret (bool_decide (is_Some book))
  | None => qret true
  end.

(** validate question schemas *)
Fixpoint validateQuestionSchemas (questions : list IQuestion) : MQ unit :=
  match questions with
  | [] => qret tt
  | question :: questions' =>
      errorMsg <- qawait (QCall_isQuestionSchemaValid question)
                         (isQuestionSchemaValid question) ;;
      match errorMsg with
      | Some errorMsg =>
          qthrow (QuizBadRequestError
                    (NotAValidQuestion (Question.prompt question)
                       (Question.type question) errorMsg))
      | None => validateQuestionSchemas questions'
      end
  end.

Definition createQuiz (req : IRequest IQuizBody) : MQ IQuiz :=
  let candidateQuiz := body req in
  valid <- isBookValid (QuizBody.book_id candidateQuiz) ;;
  if negb valid
  then qthrow (QuizBadRequestError (NoBookExists (QuizBody.book_id candidateQuiz)))
  else
    validateQuestionSchemas (QuizBody.questions candidateQuiz) ;;
    date <- qawait QCall_new_Date Date_now ;;
    let newQuiz :=
      {| NewQuiz.questions := QuizBody.questions candidateQuiz;
         NewQuiz.book_id := QuizBody.book_id candidateQuiz;
         NewQuiz.date_created := date |} in
    qawait (QCall_createQuiz newQuiz) (createQuiz_saved newQuiz).

(** Resolves with the [updatedQuiz] of the answer. *)
Definition updateQuiz (req : IRequest IQuiz) : MQ IQuiz :=
  valid <- isBookValid (Quiz.book_id (body req)) ;;
  if negb valid
  then qthrow (QuizBadRequestError (NoBookExists (Quiz.book_id (body req))))
  else
    updatedQuiz <- qawait (QCall_updateQuiz (body req))
                          (updateQuiz_result (body req)) ;;
    match updatedQuiz with
    | None => qthrow (QuizResourceNotFoundError NoQuizWasUpdated)
    | Some updatedQuiz => qret updatedQuiz
    end.

(** Resolves with the [deletedQuiz] of the answer; [req.params.quizId]
    selects the quiz. *)
Definition deleteQuiz (req : IRequest unit) : MQ IQuiz :=
  deletedQuiz <- qawait (QCall_deleteQuiz (params req))
                        (deleteQuiz_result (params req)) ;;
  match deletedQuiz with
  | None => qthrow (QuizResourceNotFoundError NoQuizWasDeleted)
  | Some deletedQuiz => qret deletedQuiz
  end.

(** [req.params.bookId] selects the book. *)
Definition getQuizForBook (req : IRequest unit) : MQ (option IQuiz) :=
  let bookId := params req in
  bookQuiz <- qawait (QCall_getQuizForBook bookId) (getQuizForBook_result bookId) ;;
  match bookQuiz with
  | Some bookQuiz => qret (Some bookQuiz)
  | None => qawait QCall_getGenericQuiz getGenericQuiz_result
  end.

End QuizAdminRoutes.

(** A small store for concrete runs: it knows the quiz of the fixtures. *)
Module AdminFixtures.

Definition store : IQuizStore :=
  {| createQuiz_saved newQuiz :=
       {| Quiz._id := "fresh"; Quiz.questions := NewQuiz.questions newQuiz;
          Quiz.book_id := NewQuiz.book_id newQuiz;
          Quiz.date_created := NewQuiz.date_created newQuiz |};
     updateQuiz_result quiz :=
       if decide (Quiz._id quiz = "quiz1") then Some quiz else None;
     deleteQuiz_result quizId :=
       if decide (quizId = "quiz1") then Some Fixtures.quiz1 else None;
     getQuizForBook_result bookId :=
       if decide (bookId = "hobbit") then Some Fixtures.quiz1 else None;
     getGenericQuiz_result := None |}.

(** Questions of type [mc] are fine, any other is not. *)
Definition schemas : QuestionSchemas :=
  {| isQuestionSchemaValid question :=
       if decide (Question.type question = "mc") then None
       else Some "unknown type" |}.

Definition essay : IQuestion :=
  {| Question.type := "essay"; Question.prompt := "Why?";
     Question.variant_fields := JsNull |}.

Definition quiz_request (questions : list IQuestion) (book_id : option string)
    : IRequest IQuizBody :=
  {| authToken := Fixtures.admin_token; params := "";
     body := {| QuizBody.questions := questions; QuizBody.book_id := book_id |} |}.

Definition create (req : IRequest IQuizBody) : MQ IQuiz :=
  @createQuiz store Fixtures.books schemas (Fixtures.clock_after 0) req.

Definition update (req : IRequest IQuiz) : MQ IQuiz :=
  @updateQuiz store Fixtures.books req.

End AdminFixtures.

(** A call of the first stage of [submitQuiz]: the student, the history
    and the clock of the cooldown test. *)
Definition history_call (c : Call) : Prop :=
  match c with
  | Call_getUserById _ | Call_getSubmissionsForStudent _ | Call_moment => True
  | _ => False
  end.

(** Fixtures in plain numbers: a clock given in milliseconds, reviews with
    ratings other than 4, and a book with a genre the reader has no interest
    on file for. *)
Module PlainFixtures.

Definition clock_at (ms : Z) : Clock := {| moment_now := ms; Date_now := ms |}.

Definition rated_reviews : list IBookReview :=
  [Fixtures.review 600 5 10; Fixtures.review 700 1 30; Fixtures.review 800 3 20;
   Fixtures.review 100 5 5].

Definition anthology : IBook :=
  {| genres := ["fantasy"; "poetry"]; amazon_popularity := 4 |}.

Definition submit_at (history : list IQuizSubmission) (ms : Z)
    (req : IRequest IQuizSubmissionBody) : M IQuizSubmission :=
  @submitQuiz Fixtures.users (Fixtures.quizzes history) Fixtures.books
    Fixtures.grader Fixtures.config (clock_at ms) req.

End PlainFixtures.

(* ================================================================== *)
(** * Facts about the lodash model *)

Section OrderByFacts.
Context {A : Type} (key : A -> Z).

Let desc (a b : A) : Prop := (key b <= key a)%Z.

Lemma insert_desc_perm (x : A) (l : list A) :
  Lodash.insert_desc key x l ≡ₚ x :: l.
Proof.
  induction l as [|y l IH]; simpl; [reflexivity|].
  destruct (key x <? key y)%Z; [|reflexivity].
  rewrite IH. apply perm_swap.
Qed.

Lemma orderBy_desc_perm (l : list A) : Lodash.orderBy_desc key l ≡ₚ l.
Proof.
  induction l as [|x l IH]; simpl; [reflexivity|].
  rewrite insert_desc_perm. by constructor.
Qed.

Lemma orderBy_desc_length (l : list A) :
  length (Lodash.orderBy_desc key l) = length l.
Proof. apply Permutation_length, orderBy_desc_perm. Qed.

Lemma insert_desc_sorted (x : A) (l : list A) :
  StronglySorted desc l -> StronglySorted desc (Lodash.insert_desc key x l).
Proof.
  induction 1 as [|y l Hs IH Hy]; simpl.
  - repeat constructor.
  - destruct (key x <? key y)%Z eqn:Hxy.
    + apply Z.ltb_lt in Hxy. constructor; [exact IH|].
      rewrite insert_desc_perm. constructor; [unfold desc; lia | exact Hy].
    + apply Z.ltb_ge in Hxy. constructor; [by constructor|].
      constructor; [exact Hxy|].
      eapply Forall_impl; [exact Hy|]. unfold desc. intros; simpl in *; lia.
Qed.

Lemma orderBy_desc_sorted (l : list A) :
  StronglySorted desc (Lodash.orderBy_desc key l).
Proof.
  induction l as [|x l IH]; simpl; [constructor|].
  by apply insert_desc_sorted.
Qed.

(** A prefix of a sorted list is sorted and dominates what is left. *)
Lemma sorted_take_drop (n : nat) (l : list A) :
  StronglySorted desc l ->
  StronglySorted desc (take n l)
  /\ Forall (fun r => Forall (fun t => desc t r) (take n l)) (drop n l).
Proof.
  intros Hs. revert n.
  induction Hs as [|x l Hs IH Hx]; intros [|n]; simpl.
  - split; constructor.
  - split; constructor.
  - split; [constructor|]. apply Forall_forall. intros; constructor.
  - destruct (IH n) as [IH1 IH2]. split.
    + constructor; [exact IH1|]. by apply Forall_take.
    + rewrite Forall_forall in IH2 |- *. intros r Hr.
      constructor; [|by apply IH2].
      assert (Hd : Forall (fun b => desc x b) (drop n l)) by by apply Forall_drop.
      rewrite Forall_forall in Hd. by apply Hd.
Qed.
End OrderByFacts.

(** The sum of a list does not depend on the order of its elements. *)
Lemma sum_perm (l l' : list Q) :
  l ≡ₚ l' -> (fold_right Qplus 0 l == fold_right Qplus 0 l')%Q.
Proof.
  induction 1 as [|x l l' _ IH|x y l|l l' l'' _ IH1 _ IH2]; simpl.
  - reflexivity.
  - by rewrite IH.
  - ring.
  - by rewrite IH1.
Qed.

(** [baseSum] adds from the left, the specification's sum from the right. *)
Lemma fold_left_Qplus (l : list Q) (acc : Q) :
  (fold_left Qplus l acc == acc + fold_right Qplus 0 l)%Q.
Proof.
  revert acc. induction l as [|x l IH]; intros acc; simpl.
  - ring.
  - rewrite IH. ring.
Qed.

Lemma mean_nonempty (x : Q) (l : list Q) :
  exists q, Lodash.mean (x :: l) = Num q /\ (q == arith_mean (x :: l))%Q.
Proof.
  eexists. split; [reflexivity|].
  unfold arith_mean. simpl fold_right. rewrite fold_left_Qplus. reflexivity.
Qed.

Lemma len_Q_pos {A : Type} (x : A) (l : list A) : (0 < len_Q (x :: l))%Q.
Proof.
  unfold len_Q. replace 0%Q with (inject_Z 0) by reflexivity.
  rewrite <- Zlt_Qlt. simpl length. lia.
Qed.

(** The mean of a non-empty list lies between any two bounds of its
    elements. *)
Lemma arith_mean_bounds (lo hi : Q) (l : list Q) :
  l <> [] ->
  Forall (fun v => (lo <= v /\ v <= hi)%Q) l ->
  (lo <= arith_mean l /\ arith_mean l <= hi)%Q.
Proof.
  intros Hne Hall.
  assert (Hsum : (lo * len_Q l <= fold_right Qplus 0 l
                  /\ fold_right Qplus 0 l <= hi * len_Q l)%Q).
  { clear Hne. induction Hall as [|v l [Hlo Hhi] _ IH]; simpl.
    - change (len_Q (@nil Q)) with 0%Q. split; lra.
    - assert (Hlen : (len_Q (v :: l) == 1 + len_Q l)%Q).
      { unfold len_Q. simpl length. rewrite Nat2Z.inj_succ, <- Z.add_1_l.
        by rewrite inject_Z_plus. }
      rewrite Hlen. destruct IH as [IH1 IH2].
      split; nra. }
  destruct l as [|x l]; [done|].
  pose proof (len_Q_pos x l) as Hpos. unfold arith_mean.
  destruct Hsum as [H1 H2]. split.
  - apply Qle_shift_div_l; [exact Hpos | exact H1].
  - apply Qle_shift_div_r; [exact Hpos | exact H2].
Qed.

(** A pointwise larger list has a larger mean. *)
Lemma arith_mean_mono (l l' : list Q) :
  Forall2 Qle l l' -> l <> [] -> (arith_mean l <= arith_mean l')%Q.
Proof.
  intros Hall Hne.
  assert (Hlen : length l = length l') by by eapply Forall2_length.
  assert (Hsum : (fold_right Qplus 0 l <= fold_right Qplus 0 l')%Q).
  { clear Hne Hlen. induction Hall as [|v v' l l' Hv _ IH]; simpl; lra. }
  destruct l as [|x l]; [done|].
  pose proof (len_Q_pos x l) as Hpos. unfold arith_mean.
  replace (len_Q l') with (len_Q (x :: l)) by (unfold len_Q; by rewrite Hlen).
  apply Qle_shift_div_l; [exact Hpos|].
  eapply Qle_trans; [|exact Hsum].
  apply Qle_lteq. right. field. lra.
Qed.

(* ================================================================== *)
(** * The lexile calibrator *)

Lemma adjustedLexileSignal_4 (r : IBookReview) :
  BookReview.comprehension r = 4%Z ->
  (adjustedLexileSignal r == BookReview.book_lexile_measure r)%Q.
Proof. intros H. unfold adjustedLexileSignal. rewrite H. simpl. ring. Qed.

(** With three reviews or more the calibrator averages the adjusted signals
    of three most recent ones. *)
Lemma computeCurrentLexileMeasure_recent (initial : Q)
    (bookReviews : list IBookReview) :
  (3 <= length bookReviews)%nat ->
  exists r1 r2 r3,
    most_recent_of [r1; r2; r3] bookReviews
    /\ (computeCurrentLexileMeasure initial bookReviews
        == (adjustedLexileSignal r1 + adjustedLexileSignal r2
            + adjustedLexileSignal r3) / 3)%Q.
Proof.
  intros Hlen. unfold computeCurrentLexileMeasure.
  destruct (Nat.ltb_spec (length bookReviews) 3) as [?|_]; [lia|].
  pose proof (orderBy_desc_perm BookReview.date_submitted bookReviews) as Hperm.
  pose proof (orderBy_desc_sorted BookReview.date_submitted bookReviews) as Hsorted.
  pose proof (orderBy_desc_length BookReview.date_submitted bookReviews) as Hl.
  destruct (Lodash.orderBy_desc BookReview.date_submitted bookReviews)
    as [|r1 [|r2 [|r3 rest]]]; simpl in Hl; try lia.
  exists r1, r2, r3. split.
  - exists rest. destruct (sorted_take_drop BookReview.date_submitted 3 _ Hsorted)
      as [Htake Hdrop].
    split; [by symmetry|]. split; [exact Htake | exact Hdrop].
  - simpl take. unfold Lodash.reduce, len_Q. simpl. field.
Qed.

(** C5. [computeCurrentLexileMeasure] returns the initial measure when there
    are fewer than three reviews; otherwise it returns the arithmetic mean of
    the adjusted signals [book_lexile_measure + 50 * (comprehension - 4)] of
    the three reviews with the largest [date_submitted], latest first; with
    exactly three reviews all rated 4 that is the mean of their
    [book_lexile_measure]. *)
Theorem computeCurrentLexileMeasure_spec (initial : Q)
    (bookReviews : list IBookReview) :
  ((length bookReviews < 3)%nat ->
   computeCurrentLexileMeasure initial bookReviews = initial)
  /\ ((3 <= length bookReviews)%nat ->
      exists r1 r2 r3,
        most_recent_of [r1; r2; r3] bookReviews
        /\ (computeCurrentLexileMeasure initial bookReviews
            == ((BookReview.book_lexile_measure r1
                 + 50 * (inject_Z (BookReview.comprehension r1) - 4))
                + (BookReview.book_lexile_measure r2
                   + 50 * (inject_Z (BookReview.comprehension r2) - 4))
                + (BookReview.book_lexile_measure r3
                   + 50 * (inject_Z (BookReview.comprehension r3) - 4))) / 3)%Q)
  /\ (forall a b c,
        bookReviews = [a; b; c] ->
        BookReview.comprehension a = 4%Z ->
        BookReview.comprehension b = 4%Z ->
        BookReview.comprehension c = 4%Z ->
        (computeCurrentLexileMeasure initial bookReviews
         == (BookReview.book_lexile_measure a + BookReview.book_lexile_measure b
             + BookReview.book_lexile_measure c) / 3)%Q).
Proof.
  split; [|split].
  - intros Hlen. unfold computeCurrentLexileMeasure.
    by destruct (Nat.ltb_spec (length bookReviews) 3) as [_|?]; [|lia].
  - intros Hlen.
    destruct (computeCurrentLexileMeasure_recent initial bookReviews Hlen)
      as (r1 & r2 & r3 & Hrecent & Heq).
    exists r1, r2, r3. split; [exact Hrecent|].
    rewrite Heq. unfold adjustedLexileSignal. reflexivity.
  - intros a b c -> Ha Hb Hc.
    destruct (computeCurrentLexileMeasure_recent initial [a; b; c])
      as (r1 & r2 & r3 & (rest & Hperm & _ & _) & Heq); [simpl; lia|].
    rewrite Heq. clear Heq.
    assert (rest = []) as ->.
    { apply Permutation_length in Hperm. simpl in Hperm.
      destruct rest; [done | simpl in Hperm; lia]. }
    simpl in Hperm.
    pose proof (sum_perm _ _ (Permutation_map adjustedLexileSignal Hperm)) as Hsum.
    simpl in Hsum.
    rewrite (adjustedLexileSignal_4 a Ha), (adjustedLexileSignal_4 b Hb),
      (adjustedLexileSignal_4 c Hc) in Hsum.
    field_simplify_eq. lra.
Qed.

(* ================================================================== *)
(** * The match scorer *)

(** The interests a book's genres map to stay in [[1, 4]]: the default 3 does,
    and so does every interest on file by assumption. *)
Lemma interests_in_range (genreInterests : GenreInterestMap) (gs : list string) :
  (forall genreId interest,
      genreId ∈ gs -> genreInterests !! genreId = Some interest ->
      (1 <= interest <= 4)%Q) ->
  Forall (fun v => (1 <= v /\ v <= 4)%Q)
    (List.map (interestInGenre genreInterests) gs).
Proof.
  intros Hrange. induction gs as [|g gs IH]; simpl; constructor.
  - unfold interestInGenre.
    destruct (genreInterests !! g) as [v|] eqn:Hg.
    + apply (Hrange g v); [left | exact Hg].
    + split; lra.
  - apply IH. intros g' v Hin. apply Hrange. by right.
Qed.

(** On a book with a genre the scorer computes the formula of the
    specification. *)
Lemma computeMatchScore_nonempty (genreInterests : GenreInterestMap)
    (book : IBook) :
  genres book <> [] ->
  exists score,
    computeMatchScore genreInterests book = Num score
    /\ (score == match_score_spec genreInterests book)%Q.
Proof.
  intros Hne. unfold computeMatchScore, match_score_spec.
  destruct (genres book) as [|g gs]; [done|]. simpl List.map.
  destruct (mean_nonempty (interestInGenre genreInterests g)
              (List.map (interestInGenre genreInterests) gs)) as (m & -> & Hm).
  eexists. split; [reflexivity|]. by rewrite Hm.
Qed.

(** C6. For a book with at least one genre, a popularity in [[0, 5]] and
    mapped interests in [[1, 4]], [computeMatchScore] is the popularity times
    the arithmetic mean of the per-genre interests (3 for a genre that is not
    in the map) divided by 20, and lies in [[0, 1]]. *)
Theorem computeMatchScore_spec (genreInterests : GenreInterestMap)
    (book : IBook) :
  genres book <> [] ->
  (0 <= amazon_popularity book <= 5)%Q ->
  (forall genreId interest,
      genreId ∈ genres book -> genreInterests !! genreId = Some interest ->
      (1 <= interest <= 4)%Q) ->
  exists score,
    computeMatchScore genreInterests book = Num score
    /\ (score
        == amazon_popularity book
           * arith_mean
               (List.map (fun genreId => default 3%Q (genreInterests !! genreId))
                  (genres book))
           / 20)%Q
    /\ (0 <= score <= 1)%Q.
Proof.
  intros Hne [Hp0 Hp5] Hrange.
  destruct (computeMatchScore_nonempty genreInterests book Hne)
    as (score & Hscore & Heq).
  exists score. split; [exact Hscore|].
  assert (Hinterests :
            List.map (fun genreId => default 3%Q (genreInterests !! genreId))
              (genres book)
            = List.map (interestInGenre genreInterests) (genres book)).
  { apply map_ext. intros genreId. unfold interestInGenre.
    by destruct (genreInterests !! genreId). }
  rewrite Hinterests. split; [exact Heq|].
  rewrite Heq. unfold match_score_spec.
  destruct (arith_mean_bounds 1 4
              (List.map (interestInGenre genreInterests) (genres book)))
    as [Hm1 Hm4].
  { intros Hnil. apply Hne. by destruct (genres book). }
  { by apply interests_in_range. }
  set (m := arith_mean _) in *. set (p := amazon_popularity book) in *.
  split.
  - apply Qle_shift_div_l; [lra | nra].
  - apply Qle_shift_div_r; [lra | nra].
Qed.

(** C8. With the genres and the interest map fixed the score does not
    decrease when the popularity grows; with the popularity fixed it does not
    decrease when the interests grow pointwise; one genre at interest 4 and a
    popularity of 5 score exactly 1. *)
Theorem computeMatchScore_monotone :
  (forall (genreInterests : GenreInterestMap) (book book' : IBook),
      genres book' = genres book ->
      genres book <> [] ->
      (forall genreId interest,
          genreId ∈ genres book -> genreInterests !! genreId = Some interest ->
          (1 <= interest <= 4)%Q) ->
      (amazon_popularity book <= amazon_popularity book')%Q ->
      num_le (computeMatchScore genreInterests book)
             (computeMatchScore genreInterests book'))
  /\ (forall (genreInterests genreInterests' : GenreInterestMap) (book : IBook),
         genres book <> [] ->
         (0 <= amazon_popularity book)%Q ->
         (forall genreId,
             genreId ∈ genres book ->
             (interestInGenre genreInterests genreId
              <= interestInGenre genreInterests' genreId)%Q) ->
         num_le (computeMatchScore genreInterests book)
                (computeMatchScore genreInterests' book))
  /\ (forall (genreInterests : GenreInterestMap) (book : IBook) genreId interest,
         genres book = [genreId] ->
         genreInterests !! genreId = Some interest ->
         (interest == 4)%Q ->
         (amazon_popularity book == 5)%Q ->
         num_eq (computeMatchScore genreInterests book) (Num 1)).
Proof.
  split; [|split].
  - intros gi book book' Hg Hne Hrange Hp.
    destruct (computeMatchScore_nonempty gi book Hne) as (s & -> & Hs).
    destruct (computeMatchScore_nonempty gi book') as (s' & -> & Hs');
      [by rewrite Hg|].
    simpl. rewrite Hs, Hs'. unfold match_score_spec. rewrite Hg.
    destruct (arith_mean_bounds 1 4
                (List.map (interestInGenre gi) (genres book))) as [Hm1 _].
    { intros Hnil. apply Hne. by destruct (genres book). }
    { by apply interests_in_range. }
    set (m := arith_mean _) in *.
    apply Qle_shift_div_l; [lra|].
    assert (Hcancel : (amazon_popularity book * m / 20 * 20
                       == amazon_popularity book * m)%Q) by field.
    rewrite Hcancel. nra.
  - intros gi gi' book Hne Hp Hpoint.
    destruct (computeMatchScore_nonempty gi book Hne) as (s & -> & Hs).
    destruct (computeMatchScore_nonempty gi' book Hne) as (s' & -> & Hs').
    simpl. rewrite Hs, Hs'. unfold match_score_spec.
    assert (Hm : (arith_mean (List.map (interestInGenre gi) (genres book))
                  <= arith_mean (List.map (interestInGenre gi') (genres book)))%Q).
    { apply arith_mean_mono.
      - clear Hne. induction (genres book) as [|g gs IH]; simpl; constructor.
        + apply Hpoint. left.
        + apply IH. intros g' Hin. apply Hpoint. by right.
      - intros Hnil. apply Hne. by destruct (genres book). }
    set (m := arith_mean _) in *. set (m' := arith_mean _) in *.
    apply Qle_shift_div_l; [lra|].
    assert (Hcancel : (amazon_popularity book * m / 20 * 20
                       == amazon_popularity book * m)%Q) by field.
    rewrite Hcancel. nra.
  - intros gi book g v Hg Hv Hv4 Hp.
    unfold computeMatchScore. rewrite Hg. simpl.
    unfold interestInGenre. rewrite Hv.
    unfold len_Q. simpl. rewrite Hp, Hv4. reflexivity.
Qed.

(** C10. A book with no genre has [NaN] for interest factor and for score,
    which is no number of [[0, 1]]: a score within [[0, 1]] implies a genre. *)
Theorem computeMatchScore_no_genres (genreInterests : GenreInterestMap)
    (book : IBook) :
  (genres book = [] ->
   Lodash.mean (List.map (interestInGenre genreInterests) (genres book)) = NaN
   /\ computeMatchScore genreInterests book = NaN
   /\ ~ num_between 0 1 (computeMatchScore genreInterests book))
  /\ (num_between 0 1 (computeMatchScore genreInterests book) ->
      genres book <> []).
Proof.
  assert (Hnan : genres book = [] -> computeMatchScore genreInterests book = NaN).
  { intros Hg. unfold computeMatchScore. by rewrite Hg. }
  split.
  - intros Hg. split; [by rewrite Hg|]. split; [by apply Hnan|].
    rewrite (Hnan Hg). simpl. tauto.
  - intros Hin Hg. rewrite (Hnan Hg) in Hin. exact Hin.
Qed.

(* ================================================================== *)
(** * The handler monad *)

Lemma trace_bind {A B : Type} (m : M A) (k : A -> M B) :
  trace (bind m k)
  = trace m ++ match settled m with
               | Resolved a => trace (k a)
               | Rejected _ => []
               end.
Proof.
  destruct m as [t [a|e]]; simpl.
  - by destruct (k a).
  - by rewrite app_nil_r.
Qed.

Lemma settled_bind {A B : Type} (m : M A) (k : A -> M B) :
  settled (bind m k)
  = match settled m with
    | Resolved a => settled (k a)
    | Rejected e => Rejected e
    end.
Proof.
  destruct m as [t [a|e]]; simpl; [|done]. by destruct (k a).
Qed.

(** A step that passes hands over to what follows it. *)
Lemma bind_passed {B : Type} (t : list Call) (k : unit -> M B) :
  bind (t, check_result None) k = (t ++ trace (k tt), settled (k tt)).
Proof. simpl. by destruct (k tt). Qed.

(** A step that fails ends the request. *)
Lemma bind_failed {B : Type} (t : list Call) (e : HttpError) (k : unit -> M B) :
  bind (t, check_result (Some e)) k = (t, Rejected e).
Proof. reflexivity. Qed.

(* ================================================================== *)
(** * The most recent submission *)

Section Latest.
Context {A : Type} (key : A -> Z).

Lemma fold_max_ge (x : A) (l : list A) :
  (key x <= fold_right Z.max (key x) (List.map key l))%Z
  /\ Forall (fun y => (key y <= fold_right Z.max (key x) (List.map key l))%Z) l.
Proof.
  induction l as [|y l [IH1 IH2]]; simpl; [split; [lia | constructor]|].
  split; [lia|]. constructor; [lia|].
  eapply Forall_impl; [exact IH2|]. intros; simpl in *; lia.
Qed.

Lemma fold_max_attained (x : A) (l : list A) :
  exists y, y ∈ x :: l /\ key y = fold_right Z.max (key x) (List.map key l).
Proof.
  induction l as [|z l (y & Hy & Heq)]; simpl.
  - exists x. split; [left | done].
  - destruct (Z.max_spec (key z) (fold_right Z.max (key x) (List.map key l)))
      as [[_ Hmax]|[_ Hmax]]; rewrite Hmax.
    + exists y. split; [|done].
      apply elem_of_cons in Hy as [->|Hy]; [left | right; by right].
    + exists z. split; [right; left | done].
Qed.

(** The head of the descending order carries the largest key. *)
Lemma orderBy_desc_head (x : A) (l : list A) :
  exists m rest,
    Lodash.orderBy_desc key (x :: l) = m :: rest
    /\ key m = fold_right Z.max (key x) (List.map key l).
Proof.
  pose proof (orderBy_desc_perm key (x :: l)) as Hperm.
  pose proof (orderBy_desc_sorted key (x :: l)) as Hsorted.
  destruct (Lodash.orderBy_desc key (x :: l)) as [|m rest].
  { by apply Permutation_nil_l in Hperm. }
  exists m, rest. split; [done|].
  destruct (fold_max_ge x l) as [Hx Hl].
  destruct (fold_max_attained x l) as (y & Hy & Heq).
  apply Z.le_antisymm.
  - assert (Hm : m ∈ x :: l) by (rewrite <- Hperm; left).
    apply elem_of_cons in Hm as [->|Hm]; [done|].
    rewrite Forall_forall in Hl. by apply Hl.
  - rewrite <- Heq. rewrite <- Hperm in Hy.
    apply elem_of_cons in Hy as [->|Hy]; [lia|].
    apply StronglySorted_inv in Hsorted as [_ Hall].
    rewrite Forall_forall in Hall. by apply Hall.
Qed.
End Latest.

Lemma find_existsb {A : Type} (p : A -> bool) (l : list A) :
  Lodash.find p l = None <-> existsb p l = false.
Proof.
  unfold Lodash.find. induction l as [|x l IH]; simpl; [done|].
  destruct (p x); simpl; [split; discriminate | exact IH].
Qed.

(* ================================================================== *)
(** * The steps of [submitQuiz], one check at a time *)

Section Steps.
Context {userData : IUserData} {quizData : IQuizData} {bookData : IBookData}.
Context {QuizGraderInstance : QuizGrader} {constants : Constants} {clock : Clock}.

Implicit Types req : IRequest IQuizSubmissionBody.

Lemma submitQuiz_identity_run req :
  submitQuiz_identity req = ([], check_result (fails IdentityCheck req)).
Proof.
  unfold submitQuiz_identity, fails.
  destruct (AuthToken.type (authToken req)) eqn:Htype;
    destruct (decide (_ /\ _)) as [Hn|Hn];
    destruct (decide (_ = _)) as [Heq|Hne']; try done.
  all: exfalso;
    first [ apply Hn; by split
          | destruct Hn as [Ha Hb]; first [discriminate Ha | by apply Hb] ].
Qed.

Lemma verifyUser_run req :
  verifyUser (SubmissionBody.student_id (body req))
  = ([Call_getUserById (SubmissionBody.student_id (body req))],
     check_result (first_failure [StudentExists; StudentRole] req)).
Proof.
  unfold verifyUser. simpl.
  destruct (getUserById _) as [user|]; simpl; [|done].
  case_decide as Htype; destruct (User.type user); simpl; done.
Qed.

Lemma checkCooldown_run req :
  exists t,
    checkCooldown (getSubmissionsForStudent (SubmissionBody.student_id (body req)))
    = (t, check_result (fails CooldownCheck req))
    /\ Forall check_call t.
Proof.
  unfold checkCooldown, fails, mustWaitUntil, latest_date_created.
  destruct (getSubmissionsForStudent _) as [|s l].
  { exists []. split; [done | constructor]. }
  destruct (orderBy_desc_head Submission.date_created s l)
    as (m & rest & -> & ->).
  exists [Call_moment]. split; [|by repeat constructor].
  simpl. by destruct (_ <? _)%Z.
Qed.

Lemma checkPrevSubmissionsForBook_passed req :
  fails AlreadyPassedCheck req
  = Some (ForbiddenError (AlreadyPassedQuizForBook (SubmissionBody.book_id (body req)))) ->
  checkPrevSubmissionsForBook
    (getSubmissionsForStudent (SubmissionBody.student_id (body req)))
    (SubmissionBody.book_id (body req))
  = ([], Rejected (ForbiddenError
                     (AlreadyPassedQuizForBook (SubmissionBody.book_id (body req))))).
Proof.
  unfold checkPrevSubmissionsForBook, fails, submissions_for_book. simpl.
  destruct (filter _ _) as [|s l] eqn:Hfilter; [done|].
  destruct (Lodash.find _ _) eqn:Hfind; [done|].
  apply find_existsb in Hfind. by rewrite Hfind.
Qed.

Lemma checkPrevSubmissionsForBook_run req :
  (0 < MaxNumQuizAttempts)%Z ->
  checkPrevSubmissionsForBook
    (getSubmissionsForStudent (SubmissionBody.student_id (body req)))
    (SubmissionBody.book_id (body req))
  = ([], check_result
           (first_failure [AlreadyPassedCheck; AttemptExhaustionCheck] req)).
Proof.
  intros Hmax.
  unfold checkPrevSubmissionsForBook, first_failure, fails, submissions_for_book.
  simpl. destruct (filter _ _) as [|s l] eqn:Hfilter.
  - simpl. change (Z.of_nat 0) with 0%Z.
    destruct (Z.leb_spec MaxNumQuizAttempts 0) as [Hle|_]; [lia | done].
  - destruct (Lodash.find _ _) eqn:Hfind.
    + destruct (existsb _ _) eqn:Hex; [done|].
      apply find_existsb in Hex. congruence.
    + apply find_existsb in Hfind. rewrite Hfind.
      by destruct (_ <=? _)%Z.
Qed.

Lemma checkAnswerCount_run req (quiz : IQuiz) :
  getQuizById (SubmissionBody.quiz_id (body req)) = Some quiz ->
  checkAnswerCount quiz (SubmissionBody.answers (body req))
  = ([], check_result (fails ShapeCheck req)).
Proof.
  intros Hquiz. unfold checkAnswerCount, fails. rewrite Hquiz.
  repeat case_decide; done || congruence.
Qed.

(** The loop looks at the answers from index [i] on, pairing them with the
    questions that are left. *)
Lemma verifyAnswerSchemas_loop (questions : list IQuestion) (i : nat)
    (answers : list JsValue) :
  length questions = length (drop i answers) ->
  exists t,
    verifyAnswerSchemas questions i answers
    = (t, check_result
            (BadRequestError
               <$> first_invalid_answer (combine questions (drop i answers))))
    /\ Forall check_call t.
Proof.
  revert i. induction questions as [|question questions IH]; intros i Hlen.
  { exists []. split; [done | constructor]. }
  destruct (drop i answers) as [|answer rest] eqn:Hdrop; [done|].
  assert (Hi : answers !! i = Some answer).
  { pose proof (lookup_drop answers i 0) as Hlook.
    by rewrite Hdrop, Nat.add_0_r in Hlook. }
  assert (Hrest : drop (S i) answers = rest).
  { pose proof (drop_drop answers 1 i) as Hdd.
    rewrite Hdrop, Nat.add_1_r in Hdd. by rewrite <- Hdd. }
  simpl. rewrite Hi. simpl.
  destruct (isAnswerSchemaValid _ _) as [errorMsg|] eqn:Hvalid.
  - eexists. split; [reflexivity | by repeat constructor].
  - destruct (IH (S i)) as (t & Hrun & Ht).
    { rewrite Hrest. simpl in Hlen. lia. }
    rewrite Hrun, Hrest. eexists. split; [reflexivity|].
    by constructor.
Qed.

Lemma verifyAnswerSchemas_run req (quiz : IQuiz) :
  getQuizById (SubmissionBody.quiz_id (body req)) = Some quiz ->
  fails ShapeCheck req = None ->
  exists t,
    verifyAnswerSchemas (Quiz.questions quiz) 0 (SubmissionBody.answers (body req))
    = (t, check_result (fails AnswerSchemaCheck req))
    /\ Forall check_call t.
Proof.
  intros Hquiz Hshape. unfold fails in *. rewrite Hquiz in *.
  case_decide as Hlen; [|done].
  apply (verifyAnswerSchemas_loop _ 0). by rewrite drop_0.
Qed.

End Steps.

(* ================================================================== *)
(** * [submitQuiz] runs its checks in the order of its statements *)

Section SubmitQuiz.
Context {userData : IUserData} {quizData : IQuizData} {bookData : IBookData}.
Context {QuizGraderInstance : QuizGrader} {constants : Constants} {clock : Clock}.

Implicit Types req : IRequest IQuizSubmissionBody.

Lemma settles_failed req {A : Type} (t : list Call) (e : HttpError)
    (k : A -> M IQuizSubmission) :
  Forall check_call t ->
  settles_as req (Some e) (bind (t, Rejected e) k).
Proof. intros Ht. exists t. by rewrite app_nil_r. Qed.

Lemma settles_passed req {A : Type} (failure : option HttpError)
    (t : list Call) (a : A) (k : A -> M IQuizSubmission) :
  Forall check_call t ->
  settles_as req failure (k a) ->
  settles_as req failure (bind (t, Resolved a) k).
Proof.
  intros Ht Hk.
  assert (Hrun : forall tail r, runs_as (k a) tail r ->
                                runs_as (bind (t, Resolved a) k) tail r).
  { intros tail r (t' & Heq & Ht'). exists (t ++ t'). simpl. rewrite Heq.
    split; [by rewrite app_assoc | by apply Forall_app]. }
  destruct failure as [e|]; simpl in *.
  - by apply Hrun.
  - destruct Hk as (quiz & Hquiz & Hk). exists quiz. split; [done|].
    by apply Hrun.
Qed.

Lemma verifyBook_missing req (e : HttpError) :
  fails BookExists req = Some e ->
  verifyBook (SubmissionBody.book_id (body req))
  = ([Call_getBook (SubmissionBody.book_id (body req))], Rejected e).
Proof.
  unfold fails, verifyBook. simpl. destruct (getBook _); [done|].
  by intros [= <-].
Qed.

Lemma verifyBook_found req :
  fails BookExists req = None ->
  exists book,
    verifyBook (SubmissionBody.book_id (body req))
    = ([Call_getBook (SubmissionBody.book_id (body req))], Resolved book).
Proof.
  unfold fails, verifyBook. simpl. destruct (getBook _) as [book|]; [|done].
  by exists book.
Qed.

Lemma verifyQuiz_missing req (e : HttpError) :
  fails QuizExists req = Some e ->
  verifyQuiz (SubmissionBody.quiz_id (body req))
  = ([Call_getQuizById (SubmissionBody.quiz_id (body req))], Rejected e).
Proof.
  unfold fails, verifyQuiz. simpl. destruct (getQuizById _); [done|].
  by intros [= <-].
Qed.

Lemma verifyQuiz_found req :
  fails QuizExists req = None ->
  exists quiz,
    getQuizById (SubmissionBody.quiz_id (body req)) = Some quiz
    /\ verifyQuiz (SubmissionBody.quiz_id (body req))
       = ([Call_getQuizById (SubmissionBody.quiz_id (body req))], Resolved quiz).
Proof.
  unfold fails, verifyQuiz. simpl. destruct (getQuizById _) as [quiz|]; [|done].
  by exists quiz.
Qed.

(** The run of [submitQuiz] is the one of a policy that checks in
    [code_order]. *)
Lemma submitQuiz_run req :
  (0 < MaxNumQuizAttempts)%Z ->
  settles_as req (first_failure code_order req) (submitQuiz req).
Proof.
  intros Hmax. unfold submitQuiz, code_order. cbn [first_failure].
  rewrite submitQuiz_identity_run.
  destruct (fails IdentityCheck req) as [e|]; [by apply settles_failed|].
  apply settles_passed; [constructor|].
  rewrite verifyUser_run. cbn [first_failure].
  destruct (fails StudentExists req) as [e|];
    [apply settles_failed; by repeat constructor|].
  destruct (fails StudentRole req) as [e|];
    [apply settles_failed; by repeat constructor|].
  apply settles_passed; [by repeat constructor|].
  apply settles_passed; [by repeat constructor|].
  destruct (checkCooldown_run req) as (t & -> & Ht).
  destruct (fails CooldownCheck req) as [e|]; [by apply settles_failed|].
  apply settles_passed; [done|].
  rewrite (checkPrevSubmissionsForBook_run req Hmax). cbn [first_failure].
  destruct (fails AlreadyPassedCheck req) as [e|];
    [apply settles_failed; constructor|].
  destruct (fails AttemptExhaustionCheck req) as [e|];
    [apply settles_failed; constructor|].
  apply settles_passed; [constructor|].
  destruct (fails BookExists req) as [e|] eqn:Hbook.
  { rewrite (verifyBook_missing req e Hbook).
    apply settles_failed; by repeat constructor. }
  destruct (verifyBook_found req Hbook) as (book & ->).
  apply settles_passed; [by repeat constructor|].
  destruct (fails QuizExists req) as [e|] eqn:Hquiz.
  { rewrite (verifyQuiz_missing req e Hquiz).
    apply settles_failed; by repeat constructor. }
  destruct (verifyQuiz_found req Hquiz) as (quiz & Hfound & ->).
  apply settles_passed; [by repeat constructor|].
  rewrite (checkAnswerCount_run req quiz Hfound).
  destruct (fails ShapeCheck req) as [e|] eqn:Hshape;
    [apply settles_failed; constructor|].
  apply settles_passed; [constructor|].
  destruct (verifyAnswerSchemas_run req quiz Hfound Hshape) as (t' & -> & Ht').
  destruct (fails AnswerSchemaCheck req) as [e|]; [by apply settles_failed|].
  apply settles_passed; [done|].
  exists quiz. split; [done|]. exists []. split; [done | constructor].
Qed.

End SubmitQuiz.

(* ================================================================== *)
(** * The eligibility policy *)

Section Eligibility.
Context {userData : IUserData} {quizData : IQuizData} {bookData : IBookData}.
Context {QuizGraderInstance : QuizGrader} {constants : Constants} {clock : Clock}.

Implicit Types req : IRequest IQuizSubmissionBody.

Lemma runs_as_settled {A : Type} (m : M A) (tail : list Call) (r : Settled A) :
  runs_as m tail r -> settled m = r.
Proof. by intros (t & -> & _). Qed.

Lemma check_calls_not_graded (t : list Call) :
  Forall check_call t -> ~ graded t.
Proof.
  intros Ht (quiz & answers & Hin). rewrite Forall_forall in Ht.
  exact (Ht _ Hin).
Qed.

(** Every check passes exactly when no check of [code_order] fails. *)
Lemma eligible_first_failure req :
  eligible req <-> first_failure code_order req = None.
Proof.
  unfold eligible, code_order. cbn [first_failure]. split.
  - intros Hall. by rewrite !Hall.
  - intros Hnone c.
    repeat match type of Hnone with
           | match fails ?c' req with _ => _ end = None =>
               destruct (fails c' req) eqn:?; [discriminate Hnone|]
           end.
    by destruct c.
Qed.

(** Who may submit, and for whom, in the words of the handler. *)
Lemma identity_passes req :
  AuthToken.type (authToken req) = ADMIN
  \/ AuthToken._id (authToken req) = SubmissionBody.student_id (body req) ->
  fails IdentityCheck req = None.
Proof.
  intros Hwho. unfold fails. case_decide as Hid; [done|].
  destruct Hwho as [->|?]; done.
Qed.

Lemma student_passes req (user : IUser) :
  getUserById (SubmissionBody.student_id (body req)) = Some user ->
  User.type user = STUDENT ->
  fails StudentExists req = None /\ fails StudentRole req = None.
Proof. intros Huser Htype. unfold fails. by rewrite Huser, Htype. Qed.

(** Past the identity and student checks the history decides first: the
    cooldown, then the submissions for the book, then the rest [k]. *)
Lemma submitQuiz_history_first req :
  fails IdentityCheck req = None ->
  fails StudentExists req = None ->
  fails StudentRole req = None ->
  exists k : Settled IQuizSubmission,
    settled (submitQuiz req)
    = match fails CooldownCheck req with
      | Some e => Rejected e
      | None =>
          match settled (checkPrevSubmissionsForBook
                           (getSubmissionsForStudent
                              (SubmissionBody.student_id (body req)))
                           (SubmissionBody.book_id (body req))) with
          | Rejected e => Rejected e
          | Resolved _ => k
          end
      end.
Proof.
  intros Hid Hexists Hrole. unfold submitQuiz.
  rewrite submitQuiz_identity_run, Hid, bind_passed.
  rewrite verifyUser_run. cbn [first_failure]. rewrite Hexists, Hrole.
  rewrite bind_passed. cbn [settled snd].
  destruct (checkCooldown_run req) as (t & Hrun & _).
  rewrite !settled_bind. cbn [settled snd await].
  rewrite !settled_bind, Hrun. cbn [settled snd].
  destruct (fails CooldownCheck req) as [e|]; cbn [check_result];
    [by exists (Rejected e)|].
  destruct (settled (checkPrevSubmissionsForBook _ _)) as [[]|e];
    [eexists; reflexivity | by exists (Rejected e)].
Qed.

Lemma first_invalid_answer_reason (pairs : list (IQuestion * JsValue))
    (m : Message) :
  first_invalid_answer pairs = Some m ->
  check_of_error (BadRequestError m) = Some AnswerSchemaCheck.
Proof.
  induction pairs as [|[question answer] pairs IH]; simpl; [done|].
  destruct (isAnswerSchemaValid _ _); [by intros [= <-] | exact IH].
Qed.

(** The reason a check fails with names that check. *)
Lemma fails_reason req (c : Check) (e : HttpError) :
  fails c req = Some e -> check_of_error e = Some c.
Proof.
  unfold fails. destruct c; simpl.
  - case_decide; [done|].
    destruct (AuthToken.type (authToken req)); [by intros [= <-] | done].
  - destruct (getUserById _); [done | by intros [= <-]].
  - destruct (getUserById _) as [user|]; [|done].
    destruct (User.type user); [done | by intros [= <-]].
  - destruct (getBook _); [done | by intros [= <-]].
  - destruct (getQuizById _); [done | by intros [= <-]].
  - destruct (mustWaitUntil _); [|done].
    destruct (_ <? _)%Z; [by intros [= <-] | done].
  - destruct (existsb _ _); [by intros [= <-] | done].
  - destruct (_ <=? _)%Z; [by intros [= <-] | done].
  - destruct (getQuizById _); [|done].
    case_decide; [done | by intros [= <-]].
  - destruct (getQuizById _); [|done].
    destruct (first_invalid_answer _) as [m|] eqn:Hm; [|done].
    intros [= <-]. by eapply first_invalid_answer_reason.
Qed.

Lemma submitQuiz_settles req :
  (0 < MaxNumQuizAttempts)%Z ->
  Some (settled (submitQuiz req)) = policy_outcome code_order req.
Proof.
  intros Hmax. pose proof (submitQuiz_run req Hmax) as Hrun.
  unfold policy_outcome.
  destruct (first_failure code_order req) as [e|]; simpl in Hrun.
  - by rewrite (runs_as_settled _ _ _ Hrun).
  - destruct Hrun as (quiz & -> & Hrun). by rewrite (runs_as_settled _ _ _ Hrun).
Qed.

(** The grader is called exactly when no check fails. *)
Lemma submitQuiz_graded_iff req :
  (0 < MaxNumQuizAttempts)%Z ->
  graded (trace (submitQuiz req)) <-> first_failure code_order req = None.
Proof.
  intros Hmax. pose proof (submitQuiz_run req Hmax) as Hrun.
  destruct (first_failure code_order req) as [e|]; simpl in Hrun.
  - destruct Hrun as (t & -> & Ht). rewrite app_nil_r. simpl. split; [|done].
    intros Hgraded. by apply check_calls_not_graded in Hgraded.
  - destruct Hrun as (quiz & _ & t & -> & _). split; [done|]. intros _.
    exists quiz, (SubmissionBody.answers (body req)). simpl.
    apply elem_of_app. right. left.
Qed.

End Eligibility.

(* ================================================================== *)
(** * When the book and the quiz are looked up *)

Section LookupOrder.
Context {userData : IUserData} {quizData : IQuizData} {bookData : IBookData}.
Context {QuizGraderInstance : QuizGrader} {constants : Constants} {clock : Clock}.

Implicit Types req : IRequest IQuizSubmissionBody.

Lemma bind_resolved {A B : Type} (t : list Call) (a : A) (k : A -> M B) :
  bind (t, Resolved a) k = (t ++ trace (k a), settled (k a)).
Proof. simpl. by destruct (k a). Qed.

Lemma checkCooldown_history_calls req :
  exists t,
    checkCooldown (getSubmissionsForStudent (SubmissionBody.student_id (body req)))
    = (t, check_result (fails CooldownCheck req))
    /\ Forall history_call t.
Proof.
  unfold checkCooldown, fails, mustWaitUntil, latest_date_created.
  destruct (getSubmissionsForStudent _) as [|s l].
  { exists []. split; [done | constructor]. }
  destruct (orderBy_desc_head Submission.date_created s l)
    as (m & rest & -> & ->).
  exists [Call_moment]. split; [|by repeat constructor].
  simpl. by destruct (_ <? _)%Z.
Qed.

(** Up to the look-up of the book.  While one of the identity, student,
    cooldown, already-passed and attempt checks fails, [submitQuiz] stops
    with its reason having made history calls only; when they all pass and
    the book is missing, it stops right after the look-up of the book. *)
Lemma submitQuiz_history_stage req :
  (0 < MaxNumQuizAttempts)%Z ->
  exists t,
    match first_failure
            [IdentityCheck; StudentExists; StudentRole;
             CooldownCheck; AlreadyPassedCheck; AttemptExhaustionCheck] req with
    | Some e => submitQuiz req = (t, Rejected e)
    | None =>
        match fails BookExists req with
        | Some e =>
            submitQuiz req
            = (t ++ [Call_getBook (SubmissionBody.book_id (body req))], Rejected e)
        | None => True
        end
    end
    /\ Forall history_call t.
Proof.
  intros Hmax. unfold submitQuiz. cbn [first_failure].
  rewrite submitQuiz_identity_run.
  destruct (fails IdentityCheck req) as [e|];
    [exists []; split; [done | constructor]|].
  rewrite bind_passed, verifyUser_run. cbn [first_failure].
  destruct (fails StudentExists req) as [e|];
    [eexists; split; [reflexivity | by repeat constructor]|].
  destruct (fails StudentRole req) as [e|];
    [eexists; split; [reflexivity | by repeat constructor]|].
  rewrite bind_passed. unfold await. rewrite bind_resolved.
  destruct (checkCooldown_history_calls req) as (tc & -> & Htc).
  destruct (fails CooldownCheck req) as [e|].
  { eexists. split; [reflexivity|]. by repeat constructor. }
  rewrite bind_passed, (checkPrevSubmissionsForBook_run req Hmax).
  cbn [first_failure].
  destruct (fails AlreadyPassedCheck req) as [e|].
  { eexists. split; [reflexivity|]. rewrite app_nil_r. by repeat constructor. }
  destruct (fails AttemptExhaustionCheck req) as [e|].
  { eexists. split; [reflexivity|]. rewrite app_nil_r. by repeat constructor. }
  rewrite bind_passed.
  destruct (fails BookExists req) as [e|] eqn:Hbook.
  - rewrite (verifyBook_missing req e Hbook).
    exists ([Call_getUserById (SubmissionBody.student_id (body req));
             Call_getSubmissionsForStudent (SubmissionBody.student_id (body req))]
            ++ tc).
    split; [|by repeat constructor].
    cbn [bind trace settled fst snd]. by rewrite <- !app_assoc.
  - exists []. split; [done | constructor].
Qed.

End LookupOrder.

Section Claims.
Context {userData : IUserData} {quizData : IQuizData} {bookData : IBookData}.
Context {QuizGraderInstance : QuizGrader} {constants : Constants} {clock : Clock}.

Implicit Types req : IRequest IQuizSubmissionBody.


(** C2, as the code has it.  When the acting principal may submit for the
    student, the student exists with the student role and the cooldown
    check passes, a prior passed submission for the book gets any new
    attempt for that book rejected with the already-passed reason, however
    many attempts were made and whether or not the book and the quiz
    exist. *)
Theorem already_passed_rejected req (user : IUser) (s : IQuizSubmission) :
  AuthToken.type (authToken req) = ADMIN
  \/ AuthToken._id (authToken req) = SubmissionBody.student_id (body req) ->
  getUserById (SubmissionBody.student_id (body req)) = Some user ->
  User.type user = STUDENT ->
  fails CooldownCheck req = None ->
  s ∈ getSubmissionsForStudent (SubmissionBody.student_id (body req)) ->
  Submission.book_id s = SubmissionBody.book_id (body req) ->
  Submission.passed s = true ->
  settled (submitQuiz req)
  = Rejected (ForbiddenError
                (AlreadyPassedQuizForBook (SubmissionBody.book_id (body req)))).
Proof.
  intros Hwho Huser Htype Hcool Hin Hbook Hpassed.
  destruct (student_passes req user Huser Htype) as [Hexists Hrole].
  destruct (submitQuiz_history_first req (identity_passes req Hwho) Hexists Hrole)
    as (k & ->).
  rewrite Hcool, checkPrevSubmissionsForBook_passed; [done|].
  unfold fails, submissions_for_book. simpl.
  assert (Hex : existsb Submission.passed
                  (filter (fun s' => Submission.book_id s'
                                     = SubmissionBody.book_id (body req))
                     (getSubmissionsForStudent
                        (SubmissionBody.student_id (body req)))) = true).
  { apply existsb_exists. exists s. split; [|done].
    apply list_elem_of_In, list_elem_of_filter. by split. }
  by rewrite Hex.
Qed.

(** C4.  The cooldown looks at the whole history of the student, whatever
    the book: with [latest] the largest [date_created] of that history and
    [mustWaitUntil] that instant plus [MinHoursBetweenBookQuizAttempt] hours
    of 3600000 milliseconds, an attempt for any book strictly before
    [mustWaitUntil] is rejected with [mustWaitUntil] in its message, and from
    [mustWaitUntil] on the cooldown check passes. *)
Theorem cooldown_platform_wide req (user : IUser) (latest : Z) :
  AuthToken.type (authToken req) = ADMIN
  \/ AuthToken._id (authToken req) = SubmissionBody.student_id (body req) ->
  getUserById (SubmissionBody.student_id (body req)) = Some user ->
  User.type user = STUDENT ->
  latest_date_created
    (getSubmissionsForStudent (SubmissionBody.student_id (body req)))
  = Some latest ->
  ((moment_now < latest + MinHoursBetweenBookQuizAttempt * 3600000)%Z ->
   settled (submitQuiz req)
   = Rejected (ForbiddenError
                 (MustWaitTill (latest + MinHoursBetweenBookQuizAttempt * 3600000))))
  /\ ((latest + MinHoursBetweenBookQuizAttempt * 3600000 <= moment_now)%Z ->
      settled (checkCooldown
                 (getSubmissionsForStudent (SubmissionBody.student_id (body req))))
      = Resolved tt).
Proof.
  intros Hwho Huser Htype Hlatest.
  destruct (student_passes req user Huser Htype) as [Hexists Hrole].
  assert (Hfails : fails CooldownCheck req
                   = if (moment_now
                         <? latest + MinHoursBetweenBookQuizAttempt * 3600000)%Z
                     then Some (ForbiddenError
                                  (MustWaitTill
                                     (latest
                                      + MinHoursBetweenBookQuizAttempt * 3600000)))
                     else None).
  { unfold fails, mustWaitUntil, hours. by rewrite Hlatest. }
  split; intros Hnow.
  - destruct (submitQuiz_history_first req (identity_passes req Hwho) Hexists Hrole)
      as (k & ->).
    rewrite Hfails.
    by destruct (Z.ltb_spec moment_now
                   (latest + MinHoursBetweenBookQuizAttempt * 3600000)); [|lia].
  - destruct (checkCooldown_run req) as (t & -> & _). rewrite Hfails.
    by destruct (Z.ltb_spec moment_now
                   (latest + MinHoursBetweenBookQuizAttempt * 3600000)); [lia|].
Qed.


End Claims.

(* ================================================================== *)
(** * The comprehension update *)

Section Comprehension.
Context {quizData : IQuizData}.

Implicit Types req : IRequest Z.

(** What the handler does with a submission it found. *)
Lemma setComprehensionForSubmission_found req (submission : IQuizSubmission) :
  getSubmissionById (params req) = Some submission ->
  setComprehensionForSubmission req
  = if decide (AuthToken.type (authToken req) = STUDENT
               /\ AuthToken._id (authToken req) <> Submission.student_id submission)
    then ([Call_getSubmissionById (params req)],
          Rejected (BadRequestError StudentsCannotUpdateComprehension))
    else ([Call_getSubmissionById (params req);
           Call_updateQuizSubmission (assignComprehension submission (body req))],
          Resolved (updateQuizSubmission_saved
                      (assignComprehension submission (body req)))).
Proof.
  intros Hfound. unfold setComprehensionForSubmission. simpl.
  rewrite Hfound. by case_decide.
Qed.

Lemma setComprehensionForSubmission_missing req :
  getSubmissionById (params req) = None ->
  setComprehensionForSubmission req
  = ([Call_getSubmissionById (params req)],
     Rejected (ResourceNotFoundError (SubmissionDoesNotExist (params req)))).
Proof.
  intros Hmissing. unfold setComprehensionForSubmission. simpl.
  by rewrite Hmissing.
Qed.

(** C3, as the code has it.  A principal with the student role whose
    identity differs from the [student_id] of the submission gets the update
    rejected and nothing is written; the update is written only for the
    submitting student or for a principal that is not a student. *)
Theorem comprehension_by_other_student_rejected req :
  (forall submission,
      getSubmissionById (params req) = Some submission ->
      AuthToken.type (authToken req) = STUDENT ->
      AuthToken._id (authToken req) <> Submission.student_id submission ->
      setComprehensionForSubmission req
      = ([Call_getSubmissionById (params req)],
         Rejected (BadRequestError StudentsCannotUpdateComprehension)))
  /\ (forall updated,
         Call_updateQuizSubmission updated ∈ trace (setComprehensionForSubmission req) ->
         exists submission,
           getSubmissionById (params req) = Some submission
           /\ (AuthToken.type (authToken req) <> STUDENT
               \/ AuthToken._id (authToken req) = Submission.student_id submission)).
Proof.
  split.
  - intros submission Hfound Htype Hid.
    rewrite (setComprehensionForSubmission_found req submission Hfound).
    case_decide as Hguard; [done|]. exfalso. apply Hguard. by split.
  - intros updated Hin.
    destruct (getSubmissionById (params req)) as [submission|] eqn:Hfound.
    + exists submission. split; [done|].
      rewrite (setComprehensionForSubmission_found req submission Hfound) in Hin.
      case_decide as Hguard.
      * simpl in Hin. apply list_elem_of_singleton in Hin. discriminate Hin.
      * destruct (decide (AuthToken.type (authToken req) = STUDENT)) as [Ht|Ht];
          [|by left].
        right. destruct (decide (AuthToken._id (authToken req)
                                 = Submission.student_id submission)); [done|].
        exfalso. apply Hguard. by split.
    + rewrite (setComprehensionForSubmission_missing req Hfound) in Hin.
      simpl in Hin. apply list_elem_of_singleton in Hin. discriminate Hin.
Qed.

(** C9.  Whatever [setComprehensionForSubmission] writes is the stored
    submission with [comprehension] replaced by the rating of the request:
    [_id], [quiz_id], [student_id], [book_id], [answers], [date_created],
    [score] and [passed] are written back as they were; and for an existing
    submission the handler, when it lets the principal through, writes
    exactly once. *)
Theorem comprehension_update_frame req :
  (forall updated,
      Call_updateQuizSubmission updated ∈ trace (setComprehensionForSubmission req) ->
      exists submission,
        getSubmissionById (params req) = Some submission
        /\ Submission._id updated = Submission._id submission
        /\ Submission.quiz_id updated = Submission.quiz_id submission
        /\ Submission.student_id updated = Submission.student_id submission
        /\ Submission.book_id updated = Submission.book_id submission
        /\ Submission.answers updated = Submission.answers submission
        /\ Submission.date_created updated = Submission.date_created submission
        /\ Submission.score updated = Submission.score submission
        /\ Submission.passed updated = Submission.passed submission
        /\ Submission.comprehension updated = Some (body req))
  /\ (forall submission,
         getSubmissionById (params req) = Some submission ->
         ~ (AuthToken.type (authToken req) = STUDENT
            /\ AuthToken._id (authToken req) <> Submission.student_id submission) ->
         exists updated,
           setComprehensionForSubmission req
           = ([Call_getSubmissionById (params req);
               Call_updateQuizSubmission updated],
              Resolved (updateQuizSubmission_saved updated))
           /\ Call_updateQuizSubmission updated
              ∈ trace (setComprehensionForSubmission req)).
Proof.
  split.
  - intros updated Hin.
    destruct (getSubmissionById (params req)) as [submission|] eqn:Hfound.
    + exists submission. split; [done|].
      rewrite (setComprehensionForSubmission_found req submission Hfound) in Hin.
      case_decide as Hguard; simpl in Hin.
      * apply list_elem_of_singleton in Hin. discriminate Hin.
      * apply elem_of_cons in Hin as [Hin|Hin]; [discriminate Hin|].
        apply list_elem_of_singleton in Hin. injection Hin as ->.
        by repeat split.
    + rewrite (setComprehensionForSubmission_missing req Hfound) in Hin.
      simpl in Hin. apply list_elem_of_singleton in Hin. discriminate Hin.
  - intros submission Hfound Hguard.
    rewrite (setComprehensionForSubmission_found req submission Hfound).
    case_decide; [done|]. eexists. split; [reflexivity|].
    simpl. right. left.
Qed.

End Comprehension.

(* ================================================================== *)
(** * Concrete runs *)

Import Fixtures.



(** C2 fails as stated.  Alice passed the quiz for the hobbit at [T]; one
    hour later, the cooldown still running, a new attempt for the hobbit is
    rejected with the cooldown reason, not the already-passed one. *)
Lemma already_passed_counterexample :
  attempt "hobbit" true
  ∈ getSubmissionsForStudent (IQuizData := quizzes [attempt "hobbit" true]) "alice"
  /\ Submission.passed (attempt "hobbit" true) = true
  /\ settled (submit [attempt "hobbit" true] 1
                (submission_request alice_token "hobbit"))
     = Rejected (ForbiddenError (MustWaitTill (T + hours 24)))
  /\ settled (submit [attempt "hobbit" true] 1
                (submission_request alice_token "hobbit"))
     <> Rejected (ForbiddenError (AlreadyPassedQuizForBook "hobbit")).
Proof.
  split; [left|]. split; [reflexivity|]. split; [reflexivity|].
  vm_compute. discriminate.
Qed.

Lemma already_passed_rejected_witness :
  settled (submit [attempt "hobbit" true] 25
             (submission_request alice_token "hobbit"))
  = Rejected (ForbiddenError (AlreadyPassedQuizForBook "hobbit")).
Proof.
  apply (already_passed_rejected (userData := users)
           (quizData := quizzes [attempt "hobbit" true]) (bookData := books)
           (QuizGraderInstance := grader) (constants := config)
           (clock := clock_after 25)
           (submission_request alice_token "hobbit") alice (attempt "hobbit" true)).
  - right. reflexivity.
  - reflexivity.
  - reflexivity.
  - reflexivity.
  - left.
  - reflexivity.
  - reflexivity.
Defined.

(** C3 fails as stated.  An administrator, who is not the student of the
    submission, sets its comprehension rating. *)
Lemma comprehension_by_admin_counterexample :
  getSubmissionById (IQuizData := quizzes [attempt "hobbit" true]) "s1"
  = Some (attempt "hobbit" true)
  /\ AuthToken._id admin_token <> Submission.student_id (attempt "hobbit" true)
  /\ rate [attempt "hobbit" true] (comprehension_request admin_token)
     = ([Call_getSubmissionById "s1";
         Call_updateQuizSubmission (assignComprehension (attempt "hobbit" true) 5)],
        Resolved (assignComprehension (attempt "hobbit" true) 5)).
Proof.
  split; [reflexivity|]. split; [discriminate | reflexivity].
Qed.

Lemma comprehension_by_other_student_witness :
  rate [attempt "hobbit" true] (comprehension_request bob_token)
  = ([Call_getSubmissionById "s1"],
     Rejected (BadRequestError StudentsCannotUpdateComprehension)).
Proof.
  apply (proj1 (comprehension_by_other_student_rejected
                  (quizData := quizzes [attempt "hobbit" true])
                  (comprehension_request bob_token))
           (attempt "hobbit" true)).
  - reflexivity.
  - reflexivity.
  - discriminate.
Defined.

(** In milliseconds: a failed attempt for the hobbit was made at 1000; with
    a window of 24 hours, an attempt for another book 23 hours later, at
    82801000, is told to wait until 86401000. *)
Lemma cooldown_platform_wide_witness :
  settled (PlainFixtures.submit_at [attempt "hobbit" false] 82801000
             (submission_request alice_token "silmarillion"))
  = Rejected (ForbiddenError (MustWaitTill 86401000)).
Proof.
  apply (proj1 (cooldown_platform_wide (userData := users)
                  (quizData := quizzes [attempt "hobbit" false]) (bookData := books)
                  (QuizGraderInstance := grader) (constants := config)
                  (clock := PlainFixtures.clock_at 82801000)
                  (submission_request alice_token "silmarillion") alice 1000
                  (or_intror eq_refl) eq_refl eq_refl eq_refl)).
  reflexivity.
Defined.

(** One millisecond before the end of the window the attempt is still
    rejected; at its end, 86401000, the cooldown check lets it through and the
    dangling book is what is reported. *)
Example cooldown_window_ends :
  settled (PlainFixtures.submit_at [attempt "hobbit" false] 86400999
             (submission_request alice_token "silmarillion"))
  = Rejected (ForbiddenError (MustWaitTill 86401000))
  /\ settled (PlainFixtures.submit_at [attempt "hobbit" false] 86401000
                (submission_request alice_token "silmarillion"))
     = Rejected (BadRequestError (NoBookWithId "silmarillion"))
  /\ settled (PlainFixtures.submit_at [attempt "silmarillion" false] 90001000
                (submission_request alice_token "hobbit"))
     = Resolved (buildSubmission (constants := config)
                   (body (submission_request alice_token "hobbit")) 90001000 100).
Proof. repeat split; reflexivity. Qed.

(** Four reviews rated 5, 1, 3 and 5: the three latest are those of the
    books at 700, 800 and 600, whose signals are 700 - 150, 800 - 50 and
    600 + 50. *)
Lemma computeCurrentLexileMeasure_witness :
  exists r1 r2 r3,
    most_recent_of [r1; r2; r3] PlainFixtures.rated_reviews
    /\ (computeCurrentLexileMeasure 500 PlainFixtures.rated_reviews
        == ((BookReview.book_lexile_measure r1
             + 50 * (inject_Z (BookReview.comprehension r1) - 4))
            + (BookReview.book_lexile_measure r2
               + 50 * (inject_Z (BookReview.comprehension r2) - 4))
            + (BookReview.book_lexile_measure r3
               + 50 * (inject_Z (BookReview.comprehension r3) - 4))) / 3)%Q.
Proof.
  apply (proj1 (proj2 (computeCurrentLexileMeasure_spec 500
                         PlainFixtures.rated_reviews))).
  simpl. lia.
Defined.

Example computeCurrentLexileMeasure_rated :
  (computeCurrentLexileMeasure 500 PlainFixtures.rated_reviews
   == ((700 - 150) + (800 - 50) + (600 + 50)) / 3)%Q
  /\ (computeCurrentLexileMeasure 500 three_reviews == (600 + 700 + 800) / 3)%Q
  /\ computeCurrentLexileMeasure 500 [review 600 1 10; review 700 1 30] = 500%Q.
Proof. repeat split; reflexivity. Qed.

Lemma keen_reader_in_range (genreId : string) (interest : Q) :
  genreId ∈ genres hobbit ->
  keen_reader !! genreId = Some interest ->
  (1 <= interest <= 4)%Q.
Proof.
  intros Hin Hlook. apply list_elem_of_singleton in Hin as ->.
  unfold keen_reader in Hlook. rewrite lookup_singleton_eq in Hlook.
  injection Hlook as <-. split; discriminate.
Qed.

Lemma keen_reader_anthology_in_range (genreId : string) (interest : Q) :
  genreId ∈ genres PlainFixtures.anthology ->
  keen_reader !! genreId = Some interest ->
  (1 <= interest <= 4)%Q.
Proof.
  intros Hin Hlook. unfold keen_reader in Hlook.
  apply lookup_singleton_Some in Hlook as [_ <-]. split; discriminate.
Qed.

(** A book of popularity 4 with two genres, one at interest 4 and one the
    reader has nothing on file for: the mean is taken over 4 and 3. *)
Lemma computeMatchScore_witness :
  exists score,
    computeMatchScore keen_reader PlainFixtures.anthology = Num score
    /\ (score
        == 4 * arith_mean
                 (List.map (fun genreId => default 3%Q (keen_reader !! genreId))
                    ["fantasy"; "poetry"])
           / 20)%Q
    /\ (0 <= score <= 1)%Q.
Proof.
  apply (computeMatchScore_spec keen_reader PlainFixtures.anthology).
  - discriminate.
  - split; discriminate.
  - exact keen_reader_anthology_in_range.
Defined.

Example computeMatchScore_anthology :
  num_eq (computeMatchScore keen_reader PlainFixtures.anthology)
         (Num (4 * ((4 + 3) / 2) / 20))
  /\ num_eq (computeMatchScore keen_reader hobbit) (Num (5 * 4 / 20))
  /\ num_eq (computeMatchScore ∅ hobbit) (Num (5 * 3 / 20)).
Proof. repeat split; reflexivity. Qed.

(** Twenty-five hours after a failed attempt alice is eligible again. *)
Lemma alice_eligible :
  eligible (userData := users) (quizData := quizzes [attempt "hobbit" false])
    (bookData := books) (QuizGraderInstance := grader) (constants := config)
    (clock := clock_after 25) (submission_request alice_token "hobbit").
Proof. intros c. by destruct c. Qed.


Lemma computeMatchScore_monotone_witness :
  num_eq (computeMatchScore keen_reader hobbit) (Num 1).
Proof.
  apply (proj2 (proj2 computeMatchScore_monotone) keen_reader hobbit "fantasy" 4%Q);
    reflexivity.
Defined.

Lemma comprehension_update_frame_witness :
  exists updated,
    rate [attempt "hobbit" true] (comprehension_request alice_token)
    = ([Call_getSubmissionById "s1"; Call_updateQuizSubmission updated],
       Resolved updated)
    /\ Call_updateQuizSubmission updated
       ∈ trace (rate [attempt "hobbit" true] (comprehension_request alice_token)).
Proof.
  apply (proj2 (comprehension_update_frame
                  (quizData := quizzes [attempt "hobbit" true])
                  (comprehension_request alice_token))
           (attempt "hobbit" true)).
  - reflexivity.
  - intros [_ Hother]. by apply Hother.
Defined.

Lemma computeMatchScore_no_genres_witness :
  computeMatchScore keen_reader pamphlet = NaN.
Proof.
  apply (proj1 (computeMatchScore_no_genres keen_reader pamphlet)). reflexivity.
Defined.

(** The examples of the specification: with a window of 24 hours an attempt
    for another book is rejected 23 hours after a submission; 25 hours after
    it, an attempt for the hobbit is graded and saved. *)
Example cooldown_23h_25h :
  settled (submit [attempt "silmarillion" false] 23
             (submission_request alice_token "hobbit"))
  = Rejected (ForbiddenError (MustWaitTill (T + hours 24)))
  /\ settled (submit [attempt "silmarillion" false] 25
                (submission_request alice_token "hobbit"))
     = Resolved
         {| Submission._id := None; Submission.quiz_id := "quiz1";
            Submission.student_id := "alice"; Submission.book_id := "hobbit";
            Submission.answers := [JsNumber 1];
            Submission.date_created := T + hours 25 + 1;
            Submission.score := 100; Submission.passed := true;
            Submission.comprehension := None |}.
Proof. split; reflexivity. Qed.

(** With three attempts allowed, a fourth one after three failures is
    rejected for good. *)
Example fourth_attempt_rejected :
  settled (submit [attempt "hobbit" false; attempt "hobbit" false;
                   attempt "hobbit" false] 25
             (submission_request alice_token "hobbit"))
  = Rejected (ForbiddenError (ExhaustedAllAttempts "hobbit")).
Proof. reflexivity. Qed.

(** Two answers for a quiz of one question are turned
    down before the grader is called. *)
Example answer_count_mismatch :
  submit [] 0
    {| authToken := alice_token; params := "";
       body := {| SubmissionBody.quiz_id := "quiz1";
                  SubmissionBody.student_id := "alice";
                  SubmissionBody.book_id := "hobbit";
                  SubmissionBody.answers := [JsNumber 1; JsNumber 2] |} |}
  = ([Call_getUserById "alice"; Call_getSubmissionsForStudent "alice";
      Call_getBook "hobbit"; Call_getQuizById "quiz1"],
     Rejected (BadRequestError (AnswerCountMismatch 1 2))).
Proof. reflexivity. Qed.

(* ================================================================== *)
(** * More on the lexile calibrator *)

Lemma adjustedLexileSignal_bounds (lo hi : Q) (r : IBookReview) :
  (lo <= BookReview.book_lexile_measure r <= hi)%Q ->
  (1 <= BookReview.comprehension r <= 5)%Z ->
  (lo - 150 <= adjustedLexileSignal r <= hi + 50)%Q.
Proof.
  intros [Hlo Hhi] [H1 H5]. unfold adjustedLexileSignal.
  rewrite Zle_Qle in H1, H5.
  change (inject_Z 1) with 1%Q in H1. change (inject_Z 5) with 5%Q in H5.
  split; lra.
Qed.

(** With three reviews or more, ratings from 1 to 5 and book measures within
    [[lo, hi]], the calibrated measure lies within [[lo - 150, hi + 50]]. *)
Lemma computeCurrentLexileMeasure_bounds (initial lo hi : Q)
    (bookReviews : list IBookReview) :
  (3 <= length bookReviews)%nat ->
  Forall (fun r => (lo <= BookReview.book_lexile_measure r <= hi)%Q
                   /\ (1 <= BookReview.comprehension r <= 5)%Z) bookReviews ->
  (lo - 150 <= computeCurrentLexileMeasure initial bookReviews <= hi + 50)%Q.
Proof.
  intros Hlen Hall.
  destruct (computeCurrentLexileMeasure_recent initial bookReviews Hlen)
    as (r1 & r2 & r3 & (rest & Hperm & _ & _) & Heq).
  rewrite Heq. clear Heq.
  rewrite Hperm in Hall. apply Forall_app in Hall as [Htop _].
  apply Forall_cons in Htop as [[Hm1 Hc1] Htop].
  apply Forall_cons in Htop as [[Hm2 Hc2] Htop].
  apply Forall_cons in Htop as [[Hm3 Hc3] _].
  pose proof (adjustedLexileSignal_bounds lo hi r1 Hm1 Hc1) as [? ?].
  pose proof (adjustedLexileSignal_bounds lo hi r2 Hm2 Hc2) as [? ?].
  pose proof (adjustedLexileSignal_bounds lo hi r3 Hm3 Hc3) as [? ?].
  split.
  - apply Qle_shift_div_l; lra.
  - apply Qle_shift_div_r; lra.
Qed.



Section OrderByMore.
Context {A : Type} (key : A -> Z).

(** An element with the smallest key, strictly, goes last. *)
Lemma insert_desc_smallest (x : A) (l : list A) :
  Forall (fun y => (key x < key y)%Z) l ->
  Lodash.insert_desc key x l = l ++ [x].
Proof.
  induction 1 as [|y l Hy _ IH]; simpl; [done|].
  destruct (Z.ltb_spec (key x) (key y)); [by rewrite IH | lia].
Qed.

Lemma insert_desc_before_smallest (x r : A) (l : list A) :
  (key r < key x)%Z ->
  Lodash.insert_desc key x (l ++ [r]) = Lodash.insert_desc key x l ++ [r].
Proof.
  intros Hr. induction l as [|y l IH]; simpl.
  - by destruct (Z.ltb_spec (key x) (key r)); [lia|].
  - destruct (key x <? key y)%Z; [by rewrite IH | done].
Qed.

(** Wherever it stands in the input, an element strictly older than all the
    others ends up last. *)
Lemma orderBy_desc_oldest (r : A) (l1 l2 : list A) :
  Forall (fun y => (key r < key y)%Z) (l1 ++ l2) ->
  Lodash.orderBy_desc key (l1 ++ r :: l2)
  = Lodash.orderBy_desc key (l1 ++ l2) ++ [r].
Proof.
  induction l1 as [|x l1 IH]; simpl; intros Hall.
  - apply insert_desc_smallest.
    rewrite Forall_forall in Hall |- *. intros y Hy. apply Hall.
    by rewrite <- (orderBy_desc_perm key l2).
  - apply Forall_cons in Hall as [Hx Hall].
    rewrite (IH Hall). by apply insert_desc_before_smallest.
Qed.

(** Distinct keys identify the elements of a list. *)
Lemma distinct_keys_inj (l : list A) (x y : A) :
  NoDup (List.map key l) -> x ∈ l -> y ∈ l -> key x = key y -> x = y.
Proof.
  induction l as [|z l IH]; simpl; intros Hnd Hx Hy Hkey.
  { by apply elem_of_nil in Hx. }
  apply NoDup_cons in Hnd as [Hz Hnd].
  apply elem_of_cons in Hx as [->|Hx]; apply elem_of_cons in Hy as [->|Hy].
  - done.
  - exfalso. apply Hz. rewrite Hkey. apply list_elem_of_In, in_map.
    by apply list_elem_of_In.
  - exfalso. apply Hz. rewrite <- Hkey. apply list_elem_of_In, in_map.
    by apply list_elem_of_In.
  - by apply IH.
Qed.

(** With distinct keys there is one descending arrangement. *)
Lemma sorted_perm_unique (l l' : list A) :
  NoDup (List.map key l) ->
  StronglySorted (fun a b => (key b <= key a)%Z) l ->
  StronglySorted (fun a b => (key b <= key a)%Z) l' ->
  l ≡ₚ l' -> l = l'.
Proof.
  revert l'. induction l as [|x l IH]; intros l' Hnd Hs Hs' Hperm.
  { by apply Permutation_nil_l in Hperm. }
  destruct l' as [|y l']; [by apply Permutation_nil_r in Hperm|].
  assert (Hxy : x = y).
  { apply (distinct_keys_inj (x :: l)); [done | left | by rewrite Hperm; left |].
    apply StronglySorted_inv in Hs as [_ Hx], Hs' as [_ Hy].
    rewrite Forall_forall in Hx, Hy.
    assert (Hyin : y ∈ x :: l) by (rewrite Hperm; left).
    assert (Hxin : x ∈ y :: l') by (rewrite <- Hperm; left).
    apply elem_of_cons in Hyin as [->|Hyin]; [done|].
    apply elem_of_cons in Hxin as [->|Hxin]; [done|].
    specialize (Hx _ Hyin). specialize (Hy _ Hxin). simpl in *. lia. }
  subst y. f_equal.
  apply StronglySorted_inv in Hs as [Hs _], Hs' as [Hs' _].
  apply IH; [by apply NoDup_cons in Hnd as [_ ?] | done | done |].
  by apply Permutation_cons_inv in Hperm.
Qed.

Lemma orderBy_desc_perm_invariant (l l' : list A) :
  NoDup (List.map key l) -> l ≡ₚ l' ->
  Lodash.orderBy_desc key l = Lodash.orderBy_desc key l'.
Proof.
  intros Hnd Hperm. apply sorted_perm_unique.
  - assert (Hp : List.map key (Lodash.orderBy_desc key l) ≡ₚ List.map key l)
      by apply Permutation_map, orderBy_desc_perm.
    by rewrite Hp.
  - apply orderBy_desc_sorted.
  - apply orderBy_desc_sorted.
  - by rewrite !orderBy_desc_perm.
Qed.
End OrderByMore.

(** The calibrator forgets: with three reviews or more on file it ignores
    the initial measure, and a further review strictly older than all of them
    changes nothing, wherever it stands in the array. *)
Theorem computeCurrentLexileMeasure_forgets (initial initial' : Q)
    (older : IBookReview) (before after : list IBookReview) :
  (3 <= length (before ++ after))%nat ->
  computeCurrentLexileMeasure initial (before ++ after)
  = computeCurrentLexileMeasure initial' (before ++ after)
  /\ (Forall (fun r => (BookReview.date_submitted older
                        < BookReview.date_submitted r)%Z) (before ++ after) ->
      computeCurrentLexileMeasure initial (before ++ older :: after)
      = computeCurrentLexileMeasure initial (before ++ after)).
Proof.
  intros Hlen. unfold computeCurrentLexileMeasure.
  destruct (Nat.ltb_spec (length (before ++ after)) 3); [lia|].
  split; [done|]. intros Hold.
  destruct (Nat.ltb_spec (length (before ++ older :: after)) 3) as [Hshort|_].
  { rewrite length_app in *. simpl in Hshort. lia. }
  rewrite (orderBy_desc_oldest _ _ _ _ Hold).
  by rewrite take_app_le; [|rewrite orderBy_desc_length; lia].
Qed.

Lemma computeCurrentLexileMeasure_forgets_witness :
  computeCurrentLexileMeasure 500
    (Fixtures.review 600 4 10 :: Fixtures.review 100 1 5
     :: [Fixtures.review 700 4 30; Fixtures.review 800 4 20])
  = computeCurrentLexileMeasure 500 Fixtures.three_reviews.
Proof.
  refine (proj2 (computeCurrentLexileMeasure_forgets 500 900
                   (Fixtures.review 100 1 5) [Fixtures.review 600 4 10]
                   [Fixtures.review 700 4 30; Fixtures.review 800 4 20] _) _).
  - simpl. lia.
  - repeat constructor; simpl; lia.
Defined.

(** When no two reviews carry the same date, the order of the array does
    not matter to the calibrator. *)
Theorem computeCurrentLexileMeasure_order_irrelevant (initial : Q)
    (bookReviews bookReviews' : list IBookReview) :
  NoDup (List.map BookReview.date_submitted bookReviews) ->
  bookReviews ≡ₚ bookReviews' ->
  computeCurrentLexileMeasure initial bookReviews
  = computeCurrentLexileMeasure initial bookReviews'.
Proof.
  intros Hnd Hperm. unfold computeCurrentLexileMeasure.
  rewrite (Permutation_length Hperm).
  by rewrite (orderBy_desc_perm_invariant _ _ _ Hnd Hperm).
Qed.

Lemma computeCurrentLexileMeasure_order_irrelevant_witness :
  computeCurrentLexileMeasure 500 Fixtures.three_reviews
  = computeCurrentLexileMeasure 500 (rev Fixtures.three_reviews).
Proof.
  apply computeCurrentLexileMeasure_order_irrelevant.
  - by apply (bool_decide_unpack _).
  - apply Permutation_rev.
Defined.

(* ================================================================== *)
(** * More on the match scorer *)

Lemma mean_perm (l l' : list Q) :
  l ≡ₚ l' -> num_same (Lodash.mean l) (Lodash.mean l').
Proof.
  intros Hperm. pose proof (sum_perm l l' Hperm) as Hsum.
  pose proof (Permutation_length Hperm) as Hlen.
  destruct l as [|x l], l' as [|x' l']; try discriminate Hlen; [done|].
  unfold Lodash.mean, Lodash.baseSum. simpl in *.
  rewrite !fold_left_Qplus, Hsum. unfold len_Q. simpl length. by rewrite Hlen.
Qed.

(** The score does not depend on the order the genres of the book are
    listed in: two books with the same popularity and the same genres, up to
    order, score the same (or are both without a score). *)
Theorem computeMatchScore_genre_order (genreInterests : GenreInterestMap)
    (book book' : IBook) :
  genres book ≡ₚ genres book' ->
  amazon_popularity book = amazon_popularity book' ->
  num_same (computeMatchScore genreInterests book)
           (computeMatchScore genreInterests book').
Proof.
  intros Hperm Hpop. unfold computeMatchScore. rewrite Hpop.
  pose proof (mean_perm _ _ (Permutation_map (interestInGenre genreInterests) Hperm))
    as Hmean.
  destruct (Lodash.mean (List.map _ (genres book))),
           (Lodash.mean (List.map _ (genres book'))); simpl in *; try done.
  by rewrite Hmean.
Qed.

Lemma computeMatchScore_genre_order_witness :
  num_same
    (computeMatchScore Fixtures.keen_reader
       {| genres := ["fantasy"; "poetry"]; amazon_popularity := 4 |})
    (computeMatchScore Fixtures.keen_reader
       {| genres := ["poetry"; "fantasy"]; amazon_popularity := 4 |}).
Proof.
  apply computeMatchScore_genre_order.
  - apply perm_swap.
  - reflexivity.
Defined.

Lemma arith_mean_constant (v : Q) (l : list Q) :
  l <> [] -> Forall (fun x => x = v) l -> (arith_mean l == v)%Q.
Proof.
  intros Hne Hall.
  assert (Hsum : (fold_right Qplus 0 l == v * len_Q l)%Q).
  { clear Hne. induction Hall as [|x l -> _ IH]; simpl.
    - change (len_Q (@nil Q)) with 0%Q. ring.
    - assert (Hlen : (len_Q (v :: l) == 1 + len_Q l)%Q).
      { unfold len_Q. simpl length. rewrite Nat2Z.inj_succ, <- Z.add_1_l.
        by rewrite inject_Z_plus. }
      rewrite Hlen, IH. ring. }
  destruct l as [|x l]; [done|].
  pose proof (len_Q_pos x l) as Hpos. unfold arith_mean.
  rewrite Hsum. field. lra.
Qed.

(** Only the interests in the genres of the book count: two maps that agree
    on those genres give the same score; and when the map knows none of them
    the score of a book with a genre is three twentieths of its
    popularity. *)
Theorem computeMatchScore_only_book_genres (genreInterests : GenreInterestMap)
    (book : IBook) :
  (forall genreInterests' : GenreInterestMap,
      (forall genreId, genreId ∈ genres book ->
                       genreInterests' !! genreId = genreInterests !! genreId) ->
      computeMatchScore genreInterests' book = computeMatchScore genreInterests book)
  /\ (genres book <> [] ->
      (forall genreId, genreId ∈ genres book -> genreInterests !! genreId = None) ->
      num_same (computeMatchScore genreInterests book)
               (Num (amazon_popularity book * 3 / 20))).
Proof.
  split.
  - intros gi' Hagree. unfold computeMatchScore.
    replace (List.map (interestInGenre gi') (genres book))
      with (List.map (interestInGenre genreInterests) (genres book)); [done|].
    apply map_ext_in. intros g Hg. unfold interestInGenre.
    rewrite Hagree; [done|]. by apply list_elem_of_In.
  - intros Hne Hnone.
    destruct (computeMatchScore_nonempty genreInterests book Hne) as (s & -> & Hs).
    simpl. rewrite Hs. unfold match_score_spec.
    rewrite (arith_mean_constant 3); [reflexivity | |].
    + intros Hnil. apply Hne. by destruct (genres book).
    + apply Forall_forall. intros v Hv.
      apply list_elem_of_In, in_map_iff in Hv as (g & <- & Hg).
      unfold interestInGenre. rewrite Hnone; [done|]. by apply list_elem_of_In.
Qed.

Lemma computeMatchScore_only_book_genres_witness :
  num_same
    (computeMatchScore Fixtures.keen_reader
       {| genres := ["poetry"]; amazon_popularity := 4 |})
    (Num (4 * 3 / 20)).
Proof.
  apply (proj2 (computeMatchScore_only_book_genres Fixtures.keen_reader
                  {| genres := ["poetry"]; amazon_popularity := 4 |})).
  - discriminate.
  - intros genreId Hin. apply list_elem_of_singleton in Hin as ->. reflexivity.
Defined.

(* ================================================================== *)
(** * More on [submitQuiz]: the attempt limit *)

(** Two continuations that agree on every value give the same handler. *)
Lemma bind_ext {A B : Type} (m : M A) (k k' : A -> M B) :
  (forall a, k a = k' a) -> bind m k = bind m k'.
Proof. intros Hk. destruct m as [t [a|e]]; simpl; [by rewrite Hk | done]. Qed.

Section AttemptLimit.
Context {userData : IUserData} {quizData : IQuizData} {bookData : IBookData}.
Context {QuizGraderInstance : QuizGrader} {constants : Constants} {clock : Clock}.

Implicit Types req : IRequest IQuizSubmissionBody.

(** The attempts are only counted when there is a prior submission for the
    book, so a limit below one cannot be told from a limit of one. *)
Lemma checkPrevSubmissionsForBook_floor (submissions : list IQuizSubmission)
    (book_id : string) :
  checkPrevSubmissionsForBook submissions book_id
  = checkPrevSubmissionsForBook
      (constants := with_max_attempts constants (Z.max 1 MaxNumQuizAttempts))
      submissions book_id.
Proof.
  unfold checkPrevSubmissionsForBook.
  destruct (filter _ submissions) as [|s l]; [done|].
  destruct (Lodash.find _ _); [done|]. simpl MaxNumQuizAttempts.
  destruct (Z.leb_spec MaxNumQuizAttempts (Z.of_nat (length (s :: l))));
    destruct (Z.leb_spec (Z.max 1 MaxNumQuizAttempts) (Z.of_nat (length (s :: l))));
    try done; simpl length in *; lia.
Qed.

Lemma submitQuiz_floor req :
  submitQuiz req
  = submitQuiz
      (constants := with_max_attempts constants (Z.max 1 MaxNumQuizAttempts)) req.
Proof.
  unfold submitQuiz. do 4 (apply bind_ext; intros ?).
  by rewrite checkPrevSubmissionsForBook_floor.
Qed.

(** A limit of zero attempts, or less, acts as a limit of one: [submitQuiz]
    behaves on every request as it does with [MaxNumQuizAttempts = 1]. *)
Theorem submitQuiz_limit_below_one req :
  (MaxNumQuizAttempts <= 1)%Z ->
  submitQuiz req = submitQuiz (constants := with_max_attempts constants 1) req.
Proof.
  intros Hmax. rewrite submitQuiz_floor. by rewrite Z.max_l.
Qed.

(** The run of [submitQuiz], whatever the limit: it is the run of the policy
    whose limit is at least one. *)
Lemma submitQuiz_run_floor req :
  settles_as req
    (first_failure
       (constants := with_max_attempts constants (Z.max 1 MaxNumQuizAttempts))
       code_order req)
    (submitQuiz req).
Proof.
  rewrite submitQuiz_floor.
  apply (submitQuiz_run
           (constants := with_max_attempts constants (Z.max 1 MaxNumQuizAttempts))).
  simpl. lia.
Qed.

(** A saved submission is the one built from the request, and no check
    failed. *)
Lemma submitQuiz_saved_inv req (s : IQuizSubmission) :
  Call_submitQuiz s ∈ trace (submitQuiz req) ->
  first_failure
    (constants := with_max_attempts constants (Z.max 1 MaxNumQuizAttempts))
    code_order req = None
  /\ exists quiz,
       getQuizById (SubmissionBody.quiz_id (body req)) = Some quiz
       /\ s = new_submission req quiz.
Proof.
  intros Hin. pose proof (submitQuiz_run_floor req) as Hrun.
  destruct (first_failure _ req) as [e|]; simpl in Hrun.
  - destruct Hrun as (t & Heq & Ht). rewrite Heq, app_nil_r in Hin. simpl in Hin.
    rewrite Forall_forall in Ht. destruct (Ht _ Hin).
  - split; [done|]. destruct Hrun as (quiz & Hquiz & t & Heq & Ht).
    exists quiz. split; [done|]. rewrite Heq in Hin. simpl in Hin.
    apply elem_of_app in Hin as [Hin|Hin].
    { rewrite Forall_forall in Ht. destruct (Ht _ Hin). }
    unfold grading_calls in Hin.
    repeat (apply elem_of_cons in Hin as [Hin|Hin]; [try discriminate Hin|]).
    + by injection Hin.
    + by apply elem_of_nil in Hin.
Qed.

(** Whatever the limit, a request is either rejected after check calls
    only, so that nothing was graded or saved, or resolved after its checks
    with one grading, one reading of the clock and one save, in this order
    and last. *)
Theorem submitQuiz_rejected_or_saved req :
  (exists e checks,
      submitQuiz req = (checks, Rejected e) /\ Forall check_call checks)
  \/ (exists quiz checks,
         getQuizById (SubmissionBody.quiz_id (body req)) = Some quiz
         /\ submitQuiz req
            = (checks ++ [Call_gradeQuiz quiz (SubmissionBody.answers (body req));
                          Call_new_Date;
                          Call_submitQuiz (new_submission req quiz)],
               Resolved (submitQuiz_saved (new_submission req quiz)))
         /\ Forall check_call checks).
Proof.
  pose proof (submitQuiz_run_floor req) as Hrun.
  destruct (first_failure _ req) as [e|]; simpl in Hrun.
  - left. destruct Hrun as (t & Heq & Ht). exists e, t.
    by rewrite app_nil_r in Heq.
  - right. destruct Hrun as (quiz & Hquiz & t & Heq & Ht). by exists quiz, t.
Qed.

End AttemptLimit.

Lemma submitQuiz_limit_below_one_witness :
  Fixtures.submit [] 25 (Fixtures.submission_request Fixtures.alice_token "hobbit")
  = submitQuiz (userData := Fixtures.users) (quizData := Fixtures.quizzes [])
      (bookData := Fixtures.books) (QuizGraderInstance := Fixtures.grader)
      (constants := with_max_attempts (with_max_attempts Fixtures.config 0) 1)
      (clock := Fixtures.clock_after 25)
      (Fixtures.submission_request Fixtures.alice_token "hobbit").
Proof.
  apply (submitQuiz_limit_below_one (userData := Fixtures.users)
           (quizData := Fixtures.quizzes []) (bookData := Fixtures.books)
           (QuizGraderInstance := Fixtures.grader)
           (constants := with_max_attempts Fixtures.config 0)
           (clock := Fixtures.clock_after 25)
           (Fixtures.submission_request Fixtures.alice_token "hobbit")).
  simpl. lia.
Defined.

(* ================================================================== *)
(** * More on [submitQuiz]: what a saved submission tells *)

Section Saved.
Context {userData : IUserData} {quizData : IQuizData} {bookData : IBookData}.
Context {QuizGraderInstance : QuizGrader} {constants : Constants} {clock : Clock}.

Implicit Types req : IRequest IQuizSubmissionBody.

Lemma first_invalid_answer_none (pairs : list (IQuestion * JsValue)) :
  first_invalid_answer pairs = None
  <-> Forall (fun pair => isAnswerSchemaValid (Question.type (fst pair)) (snd pair)
                          = None) pairs.
Proof.
  induction pairs as [|[question answer] pairs IH]; simpl.
  - split; [constructor | done].
  - destruct (isAnswerSchemaValid _ _) eqn:Hvalid.
    + split; [done|]. intros Hall. apply Forall_cons in Hall as [Hhd _].
      simpl in Hhd. congruence.
    + rewrite IH. split; [by constructor | by intros [_ ?]%Forall_cons].
Qed.

(** Once the cooldown check passes, every submission of the history is at
    least the window old. *)
Lemma cooldown_passed_all req :
  fails CooldownCheck req = None ->
  Forall (fun p => (Submission.date_created p + hours MinHoursBetweenBookQuizAttempt
                    <= moment_now)%Z)
    (getSubmissionsForStudent (SubmissionBody.student_id (body req))).
Proof.
  unfold fails, mustWaitUntil, latest_date_created.
  destruct (getSubmissionsForStudent _) as [|s l]; [constructor|].
  destruct (Z.ltb_spec moment_now
              (fold_right Z.max (Submission.date_created s)
                 (List.map Submission.date_created l)
               + hours MinHoursBetweenBookQuizAttempt)) as [|Hnow]; [done|].
  intros _. destruct (fold_max_ge Submission.date_created s l) as [Hs Hl].
  constructor; [lia|]. eapply Forall_impl; [exact Hl|]. intros; simpl in *; lia.
Qed.

(** The checks that do not look at the attempt limit do not depend on it. *)
Lemma fails_limit_irrelevant req (c : Check) (limit : Z) :
  c <> AttemptExhaustionCheck ->
  fails (constants := with_max_attempts constants limit) c req = fails c req.
Proof. by destruct c. Qed.

(** A submission is saved only for a request whose checks all passed, the
    attempts being counted as the handler counts them. *)
Lemma submitQuiz_saved_checks req (s : IQuizSubmission) :
  Call_submitQuiz s ∈ trace (submitQuiz req) ->
  (forall c, c <> AttemptExhaustionCheck -> fails c req = None)
  /\ (submissions_for_book (SubmissionBody.student_id (body req))
        (SubmissionBody.book_id (body req)) = []
      \/ (Z.of_nat (length (submissions_for_book
                              (SubmissionBody.student_id (body req))
                              (SubmissionBody.book_id (body req))))
          < MaxNumQuizAttempts)%Z)
  /\ exists quiz,
       getQuizById (SubmissionBody.quiz_id (body req)) = Some quiz
       /\ s = new_submission req quiz.
Proof.
  intros Hin. destruct (submitQuiz_saved_inv req s Hin) as [Hnone Hquiz].
  apply (eligible_first_failure
           (constants := with_max_attempts constants (Z.max 1 MaxNumQuizAttempts)))
    in Hnone.
  split; [|split; [|exact Hquiz]].
  - intros c Hc.
    rewrite <- (fails_limit_irrelevant req c (Z.max 1 MaxNumQuizAttempts) Hc).
    apply Hnone.
  - specialize (Hnone AttemptExhaustionCheck). unfold fails in Hnone.
    simpl MaxNumQuizAttempts in Hnone.
    destruct (Z.leb_spec (Z.max 1 MaxNumQuizAttempts)
                (Z.of_nat (length (submissions_for_book
                                     (SubmissionBody.student_id (body req))
                                     (SubmissionBody.book_id (body req))))))
      as [|Hlt]; [discriminate Hnone|].
    destruct (submissions_for_book _ _) as [|p l]; [by left|].
    right. simpl length in *. lia.
Qed.

(** Whoever is written into the repository was entitled to it.  A saved
    submission names an existing user with the student role, an existing book
    and an existing quiz; a principal with the student role only ever saves a
    submission of their own; the submission has one answer per question of
    the quiz, each valid for the type of its question; and it is saved
    without an id and without a comprehension rating. *)
Theorem saved_submission_is_entitled req (s : IQuizSubmission) :
  Call_submitQuiz s ∈ trace (submitQuiz req) ->
  (AuthToken.type (authToken req) = STUDENT ->
   AuthToken._id (authToken req) = Submission.student_id s)
  /\ (exists user,
         getUserById (Submission.student_id s) = Some user
         /\ User.type user = STUDENT)
  /\ is_Some (getBook (Submission.book_id s))
  /\ (exists quiz,
         getQuizById (Submission.quiz_id s) = Some quiz
         /\ length (Submission.answers s) = length (Quiz.questions quiz)
         /\ Forall (fun pair =>
                      isAnswerSchemaValid (Question.type (fst pair)) (snd pair) = None)
              (combine (Quiz.questions quiz) (Submission.answers s)))
  /\ Submission._id s = None
  /\ Submission.comprehension s = None.
Proof.
  intros Hin.
  destruct (submitQuiz_saved_checks req s Hin) as (Hpass & _ & quiz & Hquiz & ->).
  simpl. repeat split.
  - intros Htype. pose proof (Hpass IdentityCheck ltac:(done)) as Hid.
    unfold fails in Hid. case_decide; [done|]. by rewrite Htype in Hid.
  - pose proof (Hpass StudentExists ltac:(done)) as Hexists.
    pose proof (Hpass StudentRole ltac:(done)) as Hrole.
    unfold fails in Hexists, Hrole.
    destruct (getUserById _) as [user|]; [|done].
    exists user. split; [done|]. by destruct (User.type user).
  - pose proof (Hpass BookExists ltac:(done)) as Hbook. unfold fails in Hbook.
    by destruct (getBook _).
  - exists quiz. split; [done|].
    pose proof (Hpass ShapeCheck ltac:(done)) as Hshape.
    pose proof (Hpass AnswerSchemaCheck ltac:(done)) as Hschema.
    unfold fails in Hshape, Hschema. rewrite Hquiz in Hshape, Hschema.
    split; [by case_decide|].
    apply first_invalid_answer_none.
    by destruct (first_invalid_answer _).
Qed.

(** A submission is saved only when the history allows it: every earlier
    submission of the student, for any book, is at least
    [MinHoursBetweenBookQuizAttempt] hours old, none of those for this book
    has passed, and there are fewer of them than [MaxNumQuizAttempts], or
    none. *)
Theorem saved_submission_respects_history req (s : IQuizSubmission) :
  Call_submitQuiz s ∈ trace (submitQuiz req) ->
  (forall p,
      p ∈ getSubmissionsForStudent (Submission.student_id s) ->
      (Submission.date_created p + hours MinHoursBetweenBookQuizAttempt
       <= moment_now)%Z
      /\ (Submission.book_id p = Submission.book_id s ->
          Submission.passed p = false))
  /\ (submissions_for_book (Submission.student_id s) (Submission.book_id s) = []
      \/ (Z.of_nat (length (submissions_for_book (Submission.student_id s)
                              (Submission.book_id s)))
          < MaxNumQuizAttempts)%Z).
Proof.
  intros Hin.
  destruct (submitQuiz_saved_checks req s Hin) as (Hpass & Hattempts & quiz & _ & ->).
  simpl. split; [|exact Hattempts].
  intros p Hp. split.
  - pose proof (cooldown_passed_all req (Hpass CooldownCheck ltac:(done))) as Hall.
    rewrite Forall_forall in Hall. by apply Hall.
  - intros Hbook. pose proof (Hpass AlreadyPassedCheck ltac:(done)) as Hpassed.
    unfold fails in Hpassed.
    destruct (existsb _ _) eqn:Hex; [done|].
    destruct (Submission.passed p) eqn:Hp'; [|done].
    assert (Htrue : existsb Submission.passed
                      (submissions_for_book (SubmissionBody.student_id (body req))
                         (SubmissionBody.book_id (body req))) = true).
    { apply existsb_exists. exists p. split; [|done].
      apply list_elem_of_In, list_elem_of_filter. by split. }
    congruence.
Qed.

End Saved.

Lemma saved_submission_is_entitled_witness :
  exists user,
    getUserById (IUserData := Fixtures.users) "alice" = Some user
    /\ User.type user = STUDENT.
Proof.
  apply (saved_submission_is_entitled (userData := Fixtures.users)
           (quizData := Fixtures.quizzes [Fixtures.attempt "hobbit" false])
           (bookData := Fixtures.books) (QuizGraderInstance := Fixtures.grader)
           (constants := Fixtures.config) (clock := Fixtures.clock_after 25)
           (Fixtures.submission_request Fixtures.alice_token "hobbit")
           (new_submission (QuizGraderInstance := Fixtures.grader)
              (constants := Fixtures.config) (clock := Fixtures.clock_after 25)
              (Fixtures.submission_request Fixtures.alice_token "hobbit")
              Fixtures.quiz1)).
  vm_compute. do 8 right. left.
Defined.

Lemma saved_submission_respects_history_witness :
  submissions_for_book (quizData := Fixtures.quizzes [Fixtures.attempt "hobbit" false])
    "alice" "hobbit" = []
  \/ (Z.of_nat (length (submissions_for_book
                          (quizData := Fixtures.quizzes [Fixtures.attempt "hobbit" false])
                          "alice" "hobbit")) < 3)%Z.
Proof.
  apply (saved_submission_respects_history (userData := Fixtures.users)
           (quizData := Fixtures.quizzes [Fixtures.attempt "hobbit" false])
           (bookData := Fixtures.books) (QuizGraderInstance := Fixtures.grader)
           (constants := Fixtures.config) (clock := Fixtures.clock_after 25)
           (Fixtures.submission_request Fixtures.alice_token "hobbit")
           (new_submission (QuizGraderInstance := Fixtures.grader)
              (constants := Fixtures.config) (clock := Fixtures.clock_after 25)
              (Fixtures.submission_request Fixtures.alice_token "hobbit")
              Fixtures.quiz1)).
  vm_compute. do 8 right. left.
Defined.

(* ================================================================== *)
(** * More on [submitQuiz]: who is asked what *)

Section Calls.
Context {userData : IUserData} {quizData : IQuizData} {bookData : IBookData}.
Context {QuizGraderInstance : QuizGrader} {constants : Constants} {clock : Clock}.

Implicit Types req : IRequest IQuizSubmissionBody.

(** A request turned down for its principal or for its student costs at
    most the look-up of the student: a student submitting for someone else is
    rejected before any call, and for a missing user or one without the
    student role neither the history nor the book nor the quiz is read. *)
Theorem submitQuiz_early_rejections req :
  (AuthToken.type (authToken req) = STUDENT ->
   AuthToken._id (authToken req) <> SubmissionBody.student_id (body req) ->
   submitQuiz req = ([], Rejected (BadRequestError StudentsCannotSubmitForOthers)))
  /\ (fails IdentityCheck req = None ->
      getUserById (SubmissionBody.student_id (body req)) = None ->
      submitQuiz req
      = ([Call_getUserById (SubmissionBody.student_id (body req))],
         Rejected (BadRequestError
                     (UserDoesNotExist (SubmissionBody.student_id (body req))))))
  /\ (forall user,
         fails IdentityCheck req = None ->
         getUserById (SubmissionBody.student_id (body req)) = Some user ->
         User.type user <> STUDENT ->
         submitQuiz req
         = ([Call_getUserById (SubmissionBody.student_id (body req))],
            Rejected (BadRequestError
                        (UserIsNotAStudent (SubmissionBody.student_id (body req)))))).
Proof.
  split; [|split].
  - intros Htype Hid. unfold submitQuiz, submitQuiz_identity.
    case_decide as Hguard; [done|]. exfalso. apply Hguard. by split.
  - intros Hid Huser. unfold submitQuiz.
    rewrite submitQuiz_identity_run, Hid, bind_passed.
    unfold verifyUser. by rewrite Huser.
  - intros user Hid Huser Htype. unfold submitQuiz.
    rewrite submitQuiz_identity_run, Hid, bind_passed.
    unfold verifyUser. rewrite Huser. simpl. by case_decide.
Qed.

(** Past the identity check the principal plays no role: two requests with
    the same body that both pass it run alike, so an administrator submitting
    for a student gets what the student would get. *)
Theorem submitQuiz_principal_irrelevant req req' :
  body req = body req' ->
  fails IdentityCheck req = None ->
  fails IdentityCheck req' = None ->
  submitQuiz req = submitQuiz req'.
Proof.
  intros Hbody Hid Hid'. unfold submitQuiz.
  rewrite !submitQuiz_identity_run, Hid, Hid', !bind_passed.
  by rewrite Hbody.
Qed.

(** The exhausted attempts.  For a request that passes the identity, student
    and cooldown checks, when none of the prior submissions for the book has
    passed and there is at least one and at least [MaxNumQuizAttempts] of
    them, the attempt is rejected as exhausted, whether or not the book and
    the quiz exist. *)
Theorem attempts_exhausted_rejected req (user : IUser) :
  fails IdentityCheck req = None ->
  getUserById (SubmissionBody.student_id (body req)) = Some user ->
  User.type user = STUDENT ->
  fails CooldownCheck req = None ->
  fails AlreadyPassedCheck req = None ->
  submissions_for_book (SubmissionBody.student_id (body req))
    (SubmissionBody.book_id (body req)) <> [] ->
  (MaxNumQuizAttempts
   <= Z.of_nat (length (submissions_for_book
                          (SubmissionBody.student_id (body req))
                          (SubmissionBody.book_id (body req)))))%Z ->
  settled (submitQuiz req)
  = Rejected (ForbiddenError
                (ExhaustedAllAttempts (SubmissionBody.book_id (body req)))).
Proof.
  intros Hid Huser Htype Hcool Hpassed Hne Hmax.
  destruct (student_passes req user Huser Htype) as [Hexists Hrole].
  destruct (submitQuiz_history_first req Hid Hexists Hrole) as (k & ->).
  rewrite Hcool. unfold checkPrevSubmissionsForBook.
  unfold fails in Hpassed. unfold submissions_for_book in *.
  destruct (filter _ _) as [|p l]; [done|].
  destruct (existsb _ _) eqn:Hex; [done|].
  apply find_existsb in Hex. rewrite Hex.
  by destruct (Z.leb_spec MaxNumQuizAttempts (Z.of_nat (length (p :: l))));
    [|lia].
Qed.

(** The cooldown check reads the clock once, and only when there is a
    history. *)
Lemma checkCooldown_trace req :
  checkCooldown (getSubmissionsForStudent (SubmissionBody.student_id (body req)))
  = (match getSubmissionsForStudent (SubmissionBody.student_id (body req)) with
     | [] => []
     | _ :: _ => [Call_moment]
     end,
     check_result (fails CooldownCheck req)).
Proof.
  unfold checkCooldown, fails, mustWaitUntil, latest_date_created.
  destruct (getSubmissionsForStudent _) as [|s l]; [done|].
  destruct (orderBy_desc_head Submission.date_created s l) as (m & rest & -> & ->).
  simpl. by destruct (_ <? _)%Z.
Qed.

(** When every answer is valid the loop validates each of them once, in the
    order of the questions. *)
Lemma verifyAnswerSchemas_valid (questions : list IQuestion) (i : nat)
    (answers : list JsValue) :
  length questions = length (drop i answers) ->
  first_invalid_answer (combine questions (drop i answers)) = None ->
  verifyAnswerSchemas questions i answers
  = (List.map validation_call (combine questions (drop i answers)), Resolved tt).
Proof.
  revert i. induction questions as [|question questions IH]; intros i Hlen Hvalid.
  { done. }
  destruct (drop i answers) as [|answer rest] eqn:Hdrop; [done|].
  assert (Hi : answers !! i = Some answer).
  { pose proof (lookup_drop answers i 0) as Hlook.
    by rewrite Hdrop, Nat.add_0_r in Hlook. }
  assert (Hrest : drop (S i) answers = rest).
  { pose proof (drop_drop answers 1 i) as Hdd.
    rewrite Hdrop, Nat.add_1_r in Hdd. by rewrite <- Hdd. }
  simpl in Hvalid |- *. rewrite Hi. simpl.
  destruct (isAnswerSchemaValid _ _); [done|].
  rewrite (IH (S i)), Hrest; [done | | by rewrite Hrest].
  rewrite Hrest. simpl in Hlen. lia.
Qed.

(** The calls of a submission that goes through, in order: the student,
    the history, the clock if there is a history, the book, the quiz, one
    validation for each answer in the order of the questions, then the
    grading, the clock and the save.  Nothing is read twice. *)
Theorem submitQuiz_calls_when_saved req (saved : IQuizSubmission) :
  settled (submitQuiz req) = Resolved saved ->
  exists quiz,
    getQuizById (SubmissionBody.quiz_id (body req)) = Some quiz
    /\ trace (submitQuiz req)
       = [Call_getUserById (SubmissionBody.student_id (body req));
          Call_getSubmissionsForStudent (SubmissionBody.student_id (body req))]
         ++ match getSubmissionsForStudent (SubmissionBody.student_id (body req)) with
            | [] => []
            | _ :: _ => [Call_moment]
            end
         ++ [Call_getBook (SubmissionBody.book_id (body req));
             Call_getQuizById (SubmissionBody.quiz_id (body req))]
         ++ List.map validation_call
              (combine (Quiz.questions quiz) (SubmissionBody.answers (body req)))
         ++ [Call_gradeQuiz quiz (SubmissionBody.answers (body req));
             Call_new_Date;
             Call_submitQuiz (new_submission req quiz)].
Proof.
  intros Hsaved.
  pose proof (submitQuiz_run_floor req) as Hrun.
  destruct (first_failure _ req) as [e|] eqn:Hnone; simpl in Hrun.
  { apply runs_as_settled in Hrun. congruence. }
  clear Hrun.
  apply (eligible_first_failure
           (constants := with_max_attempts constants (Z.max 1 MaxNumQuizAttempts)))
    in Hnone.
  assert (Hpass : forall c, c <> AttemptExhaustionCheck -> fails c req = None).
  { intros c Hc.
    rewrite <- (fails_limit_irrelevant req c (Z.max 1 MaxNumQuizAttempts) Hc).
    apply Hnone. }
  assert (Hprev : checkPrevSubmissionsForBook
                    (getSubmissionsForStudent (SubmissionBody.student_id (body req)))
                    (SubmissionBody.book_id (body req)) = ([], Resolved tt)).
  { rewrite checkPrevSubmissionsForBook_floor.
    rewrite (checkPrevSubmissionsForBook_run
               (constants := with_max_attempts constants (Z.max 1 MaxNumQuizAttempts)));
      [|simpl; lia].
    cbn [first_failure].
    by rewrite (Hnone AlreadyPassedCheck), (Hnone AttemptExhaustionCheck). }
  destruct (verifyBook_found req (Hpass BookExists ltac:(done))) as (book & Hbook).
  destruct (verifyQuiz_found req (Hpass QuizExists ltac:(done)))
    as (quiz & Hfound & Hquiz).
  exists quiz. split; [done|].
  pose proof (Hpass ShapeCheck ltac:(done)) as Hshape.
  pose proof (Hpass AnswerSchemaCheck ltac:(done)) as Hschema.
  pose proof (checkAnswerCount_run req quiz Hfound) as Hcount.
  rewrite Hshape in Hcount.
  unfold fails in Hshape, Hschema. rewrite Hfound in Hshape, Hschema.
  case_decide as Hlen; [|done].
  destruct (first_invalid_answer _) eqn:Hvalid; [done|].
  pose proof (verifyAnswerSchemas_valid (Quiz.questions quiz) 0
                (SubmissionBody.answers (body req))) as Hloop.
  rewrite drop_0 in Hloop. specialize (Hloop (eq_sym Hlen) Hvalid).
  unfold submitQuiz.
  rewrite trace_bind, submitQuiz_identity_run, (Hpass IdentityCheck ltac:(done)).
  cbn [trace settled fst snd check_result].
  rewrite trace_bind, verifyUser_run. cbn [first_failure].
  rewrite (Hpass StudentExists ltac:(done)), (Hpass StudentRole ltac:(done)).
  cbn [trace settled fst snd check_result].
  rewrite trace_bind. cbn [await trace settled fst snd].
  rewrite trace_bind, checkCooldown_trace, (Hpass CooldownCheck ltac:(done)).
  cbn [trace settled fst snd check_result].
  rewrite trace_bind, Hprev. cbn [trace settled fst snd].
  rewrite trace_bind, Hbook. cbn [trace settled fst snd].
  rewrite trace_bind, Hquiz. cbn [trace settled fst snd].
  rewrite trace_bind, Hcount. cbn [trace settled fst snd check_result].
  rewrite trace_bind, Hloop. cbn [trace settled fst snd].
  simpl. by destruct (getSubmissionsForStudent _).
Qed.

End Calls.

Lemma submitQuiz_early_rejections_witness :
  Fixtures.submit [] 0 (Fixtures.submission_request Fixtures.bob_token "hobbit")
  = ([], Rejected (BadRequestError StudentsCannotSubmitForOthers)).
Proof.
  apply (proj1 (submitQuiz_early_rejections (userData := Fixtures.users)
                  (quizData := Fixtures.quizzes []) (bookData := Fixtures.books)
                  (QuizGraderInstance := Fixtures.grader)
                  (constants := Fixtures.config) (clock := Fixtures.clock_after 0)
                  (Fixtures.submission_request Fixtures.bob_token "hobbit"))).
  - reflexivity.
  - discriminate.
Defined.

Lemma submitQuiz_principal_irrelevant_witness :
  Fixtures.submit [] 0 (Fixtures.submission_request Fixtures.alice_token "hobbit")
  = Fixtures.submit [] 0 (Fixtures.submission_request Fixtures.admin_token "hobbit").
Proof.
  apply (submitQuiz_principal_irrelevant (userData := Fixtures.users)
           (quizData := Fixtures.quizzes []) (bookData := Fixtures.books)
           (QuizGraderInstance := Fixtures.grader)
           (constants := Fixtures.config) (clock := Fixtures.clock_after 0));
    reflexivity.
Defined.

Lemma attempts_exhausted_rejected_witness :
  settled
    (Fixtures.submit
       [Fixtures.attempt "hobbit" false; Fixtures.attempt "hobbit" false;
        Fixtures.attempt "hobbit" false] 25
       (Fixtures.submission_request Fixtures.alice_token "hobbit"))
  = Rejected (ForbiddenError (ExhaustedAllAttempts "hobbit")).
Proof.
  apply (attempts_exhausted_rejected (userData := Fixtures.users)
           (quizData := Fixtures.quizzes
                          [Fixtures.attempt "hobbit" false;
                           Fixtures.attempt "hobbit" false;
                           Fixtures.attempt "hobbit" false])
           (bookData := Fixtures.books) (QuizGraderInstance := Fixtures.grader)
           (constants := Fixtures.config) (clock := Fixtures.clock_after 25)
           (Fixtures.submission_request Fixtures.alice_token "hobbit")
           Fixtures.alice);
    try reflexivity.
  discriminate.
Defined.

Lemma submitQuiz_calls_when_saved_witness :
  exists quiz,
    getQuizById (IQuizData := Fixtures.quizzes [Fixtures.attempt "hobbit" false])
      "quiz1" = Some quiz
    /\ trace (Fixtures.submit [Fixtures.attempt "hobbit" false] 25
                (Fixtures.submission_request Fixtures.alice_token "hobbit"))
       = [Call_getUserById "alice"; Call_getSubmissionsForStudent "alice"]
         ++ [Call_moment]
         ++ [Call_getBook "hobbit"; Call_getQuizById "quiz1"]
         ++ List.map validation_call (combine (Quiz.questions quiz) [JsNumber 1])
         ++ [Call_gradeQuiz quiz [JsNumber 1]; Call_new_Date;
             Call_submitQuiz
               (new_submission (QuizGraderInstance := Fixtures.grader)
                  (constants := Fixtures.config) (clock := Fixtures.clock_after 25)
                  (Fixtures.submission_request Fixtures.alice_token "hobbit") quiz)].
Proof.
  apply (submitQuiz_calls_when_saved (userData := Fixtures.users)
           (quizData := Fixtures.quizzes [Fixtures.attempt "hobbit" false])
           (bookData := Fixtures.books) (QuizGraderInstance := Fixtures.grader)
           (constants := Fixtures.config) (clock := Fixtures.clock_after 25)
           (Fixtures.submission_request Fixtures.alice_token "hobbit")
           (new_submission (QuizGraderInstance := Fixtures.grader)
              (constants := Fixtures.config) (clock := Fixtures.clock_after 25)
              (Fixtures.submission_request Fixtures.alice_token "hobbit")
              Fixtures.quiz1)).
  reflexivity.
Defined.

(* ================================================================== *)
(** * More on the comprehension update *)

Section ComprehensionMore.
Context {quizData : IQuizData}.

Implicit Types req : IRequest Z.


End ComprehensionMore.


(* ================================================================== *)
(** * The quiz routes of the administrator *)

Section QuizAdmin.
Context {quizStore : IQuizStore} {bookData : IBookData}.
Context {questionSchemas : QuestionSchemas} {clock : Clock}.

(** The book a quiz refers to is there, or the quiz refers to none. *)
Let book_reference_ok (book_id : option string) : Prop :=
  forall id, truthy_id book_id = Some id -> is_Some (getBook id).

(** The look-up [isBookValid] makes, if any. *)
Let book_lookup (book_id : option string) : list QuizCall :=
  match truthy_id book_id with
  | Some id => [QCall_getBook id]
  | None => []
  end.

Lemma isBookValid_ok (book_id : option string) :
  book_reference_ok book_id ->
  isBookValid book_id = (book_lookup book_id, QResolved true).
Proof.
  unfold book_reference_ok, book_lookup, isBookValid.
  destruct (truthy_id book_id) as [id|]; [|done].
  intros Hok. simpl. by rewrite bool_decide_eq_true_2; [|apply Hok].
Qed.

Lemma isBookValid_dangling (book_id : option string) (id : string) :
  truthy_id book_id = Some id -> getBook id = None ->
  isBookValid book_id = ([QCall_getBook id], QResolved false).
Proof.
  intros Hid Hnone. unfold isBookValid. rewrite Hid. simpl.
  rewrite Hnone. by rewrite bool_decide_eq_false_2; [|intros [? ?]].
Qed.

Lemma book_reference_cases (book_id : option string) :
  book_reference_ok book_id
  \/ exists id, truthy_id book_id = Some id /\ getBook id = None.
Proof.
  unfold book_reference_ok.
  destruct (truthy_id book_id) as [id|]; [|by left].
  destruct (getBook id) as [book|] eqn:Hbook.
  - left. intros id' [= <-]. by rewrite Hbook.
  - right. by exists id.
Qed.

Lemma validateQuestionSchemas_valid (questions : list IQuestion) :
  Forall (fun question => isQuestionSchemaValid question = None) questions ->
  validateQuestionSchemas questions
  = (List.map QCall_isQuestionSchemaValid questions, QResolved tt).
Proof.
  induction 1 as [|question questions Hvalid _ IH]; simpl; [done|].
  by rewrite Hvalid, IH.
Qed.

Lemma validateQuestionSchemas_invalid (valid : list IQuestion)
    (bad : IQuestion) (rest : list IQuestion) (errorMsg : string) :
  Forall (fun question => isQuestionSchemaValid question = None) valid ->
  isQuestionSchemaValid bad = Some errorMsg ->
  validateQuestionSchemas (valid ++ bad :: rest)
  = (List.map QCall_isQuestionSchemaValid (valid ++ [bad]),
     QRejected (QuizBadRequestError
                  (NotAValidQuestion (Question.prompt bad) (Question.type bad)
                     errorMsg))).
Proof.
  intros Hvalid Hbad.
  induction Hvalid as [|question valid Hq _ IH]; simpl.
  - by rewrite Hbad.
  - by rewrite Hq, IH.
Qed.

(** The questions are all valid, or there is a first one that is not. *)
Lemma first_invalid_question (questions : list IQuestion) :
  Forall (fun question => isQuestionSchemaValid question = None) questions
  \/ exists valid bad rest errorMsg,
       questions = valid ++ bad :: rest
       /\ Forall (fun question => isQuestionSchemaValid question = None) valid
       /\ isQuestionSchemaValid bad = Some errorMsg.
Proof.
  induction questions as [|question questions IH]; [by left|].
  destruct (isQuestionSchemaValid question) as [errorMsg|] eqn:Hq.
  - right. by exists [], question, questions, errorMsg.
  - destruct IH as [IH|(valid & bad & rest & errorMsg & -> & Hvalid & Hbad)].
    + left. by constructor.
    + right. exists (question :: valid), bad, rest, errorMsg.
      split; [done|]. split; [by constructor | done].
Qed.

(** A quiz goes in as it came.  When the book it refers to exists (or it
    refers to none) and every question is valid, [createQuiz] looks the book
    up if there is one to look up, validates each question once and in order,
    reads the clock and creates one quiz: the questions and the book of the
    request, stamped with the clock. *)
Theorem createQuiz_creates (req : IRequest IQuizBody) :
  book_reference_ok (QuizBody.book_id (body req)) ->
  Forall (fun question => isQuestionSchemaValid question = None)
    (QuizBody.questions (body req)) ->
  let newQuiz :=
    {| NewQuiz.questions := QuizBody.questions (body req);
       NewQuiz.book_id := QuizBody.book_id (body req);
       NewQuiz.date_created := Date_now |} in
  createQuiz req
  = (book_lookup (QuizBody.book_id (body req))
     ++ List.map QCall_isQuestionSchemaValid (QuizBody.questions (body req))
     ++ [QCall_new_Date; QCall_createQuiz newQuiz],
     QResolved (createQuiz_saved newQuiz)).
Proof.
  intros Hbook Hvalid. unfold createQuiz.
  rewrite (isBookValid_ok _ Hbook). simpl.
  by rewrite (validateQuestionSchemas_valid _ Hvalid).
Qed.


(** Nothing invalid is created: whenever [createQuiz] hands a quiz to the
    repository, the book it refers to exists (or it refers to none), every
    one of its questions is valid, and it is the quiz of the request stamped
    with the clock. *)
Theorem createQuiz_creates_only_valid (req : IRequest IQuizBody)
    (newQuiz : NewQuiz.t) :
  QCall_createQuiz newQuiz ∈ fst (createQuiz req) ->
  book_reference_ok (QuizBody.book_id (body req))
  /\ Forall (fun question => isQuestionSchemaValid question = None)
       (QuizBody.questions (body req))
  /\ newQuiz = {| NewQuiz.questions := QuizBody.questions (body req);
                  NewQuiz.book_id := QuizBody.book_id (body req);
                  NewQuiz.date_created := Date_now |}.
Proof.
  intros Hin. unfold createQuiz in Hin.
  destruct (book_reference_cases (QuizBody.book_id (body req)))
    as [Hbook|(id & Hid & Hnone)].
  2: { rewrite (isBookValid_dangling _ id Hid Hnone) in Hin.
       simpl in Hin. apply list_elem_of_singleton in Hin. discriminate Hin. }
  split; [done|].
  rewrite (isBookValid_ok _ Hbook) in Hin.
  assert (Hlookup : forall q, QCall_createQuiz q ∉ book_lookup (QuizBody.book_id (body req))).
  { intros q Hq. unfold book_lookup in Hq.
    destruct (truthy_id _); [|by apply elem_of_nil in Hq].
    apply list_elem_of_singleton in Hq. discriminate Hq. }
  assert (Hvalidations : forall q questions,
             QCall_createQuiz q ∉ List.map QCall_isQuestionSchemaValid questions).
  { intros q questions Hq.
    apply list_elem_of_In, in_map_iff in Hq as (question & Heq & _).
    discriminate Heq. }
  destruct (first_invalid_question (QuizBody.questions (body req)))
    as [Hvalid|(valid & bad & rest & errorMsg & Hq & Hvalid & Hbad)].
  - split; [done|].
    simpl in Hin. rewrite (validateQuestionSchemas_valid _ Hvalid) in Hin.
    simpl in Hin.
    apply elem_of_app in Hin as [Hin|Hin]; [by apply Hlookup in Hin|].
    apply elem_of_app in Hin as [Hin|Hin]; [by apply Hvalidations in Hin|].
    apply elem_of_cons in Hin as [Hin|Hin]; [discriminate Hin|].
    apply list_elem_of_singleton in Hin. by injection Hin.
  - exfalso. simpl in Hin.
    rewrite Hq, (validateQuestionSchemas_invalid _ _ _ _ Hvalid Hbad) in Hin.
    simpl in Hin.
    apply elem_of_app in Hin as [Hin|Hin]; [by apply Hlookup in Hin|].
    by apply Hvalidations in Hin.
Qed.

End QuizAdmin.

Section QuizMaintenance.
Context {quizStore : IQuizStore} {bookData : IBookData}.
Context {questionSchemas : QuestionSchemas} {clock : Clock}.

Lemma updateQuiz_ok_run (req : IRequest IQuiz) :
  (forall id, truthy_id (Quiz.book_id (body req)) = Some id -> is_Some (getBook id)) ->
  updateQuiz req
  = (match truthy_id (Quiz.book_id (body req)) with
     | Some id => [QCall_getBook id]
     | None => []
     end ++ [QCall_updateQuiz (body req)],
     match updateQuiz_result (body req) with
     | Some updatedQuiz => QResolved updatedQuiz
     | None => QRejected (QuizResourceNotFoundError NoQuizWasUpdated)
     end).
Proof.
  intros Hbook. unfold updateQuiz. rewrite (isBookValid_ok _ Hbook). simpl.
  by destruct (updateQuiz_result (body req)).
Qed.

(** [updateQuiz] is more lenient than [createQuiz]: it never asks whether
    the questions are valid.  A quiz with a question that [createQuiz] turns
    down is written by [updateQuiz] all the same, provided its book reference
    is good and the repository finds the quiz. *)
Theorem updateQuiz_skips_question_schemas (req : IRequest IQuiz)
    (create_req : IRequest IQuizBody) (bad : IQuestion) (errorMsg : string)
    (updatedQuiz : IQuiz) :
  QuizBody.questions (body create_req) = Quiz.questions (body req) ->
  QuizBody.book_id (body create_req) = Quiz.book_id (body req) ->
  (forall id, truthy_id (Quiz.book_id (body req)) = Some id -> is_Some (getBook id)) ->
  bad ∈ Quiz.questions (body req) ->
  isQuestionSchemaValid bad = Some errorMsg ->
  updateQuiz_result (body req) = Some updatedQuiz ->
  (exists e, snd (createQuiz create_req) = QRejected e)
  /\ snd (updateQuiz req) = QResolved updatedQuiz
  /\ QCall_updateQuiz (body req) ∈ fst (updateQuiz req)
  /\ forall question, QCall_isQuestionSchemaValid question ∉ fst (updateQuiz req).
Proof.
  intros Hquestions Hbook_id Hbook Hbad Hmsg Hupdated.
  rewrite (updateQuiz_ok_run req Hbook), Hupdated. simpl.
  split; [|split; [done|split]].
  - unfold createQuiz. rewrite Hbook_id, (isBookValid_ok _ Hbook). simpl.
    destruct (first_invalid_question (QuizBody.questions (body create_req)))
      as [Hvalid|(valid & bad' & rest & errorMsg' & Hq & Hvalid & Hbad')].
    + rewrite Hquestions, Forall_forall in Hvalid.
      specialize (Hvalid _ Hbad). congruence.
    + rewrite Hq, (validateQuestionSchemas_invalid _ _ _ _ Hvalid Hbad').
      by eexists.
  - apply elem_of_app. right. left.
  - intros question Hin. apply elem_of_app in Hin as [Hin|Hin].
    + destruct (truthy_id _); [|by apply elem_of_nil in Hin].
      apply list_elem_of_singleton in Hin. discriminate Hin.
    + apply list_elem_of_singleton in Hin. discriminate Hin.
Qed.

(** A quiz that is not there.  [updateQuiz] and [deleteQuiz] both report it
    as not found after their one call to the repository; and [updateQuiz]
    does not call the repository at all when the quiz refers to a book that
    does not exist. *)
Theorem quiz_not_found (update_req : IRequest IQuiz) (delete_req : IRequest unit) :
  ((forall id, truthy_id (Quiz.book_id (body update_req)) = Some id ->
               is_Some (getBook id)) ->
   updateQuiz_result (body update_req) = None ->
   snd (updateQuiz update_req) = QRejected (QuizResourceNotFoundError NoQuizWasUpdated)
   /\ QCall_updateQuiz (body update_req) ∈ fst (updateQuiz update_req))
  /\ (deleteQuiz_result (params delete_req) = None ->
      deleteQuiz delete_req
      = ([QCall_deleteQuiz (params delete_req)],
         QRejected (QuizResourceNotFoundError NoQuizWasDeleted)))
  /\ (forall id,
         truthy_id (Quiz.book_id (body update_req)) = Some id ->
         getBook id = None ->
         updateQuiz update_req
         = ([QCall_getBook id],
            QRejected (QuizBadRequestError
                         (NoBookExists (Quiz.book_id (body update_req)))))).
Proof.
  split; [|split].
  - intros Hbook Hnone. rewrite (updateQuiz_ok_run update_req Hbook), Hnone.
    split; [done|]. simpl. apply elem_of_app. right. left.
  - intros Hnone. unfold deleteQuiz. simpl. by rewrite Hnone.
  - intros id Hid Hnone. unfold updateQuiz.
    by rewrite (isBookValid_dangling _ id Hid Hnone).
Qed.

(** [getQuizForBook] never rejects.  It answers with the quiz of the book
    when there is one, without asking for the generic quiz; otherwise with
    whatever the repository has for generic quiz, which may be nothing. *)
Theorem getQuizForBook_falls_back (req : IRequest unit) :
  (exists answer, snd (getQuizForBook req) = QResolved answer)
  /\ (forall bookQuiz,
         getQuizForBook_result (params req) = Some bookQuiz ->
         getQuizForBook req
         = ([QCall_getQuizForBook (params req)], QResolved (Some bookQuiz)))
  /\ (getQuizForBook_result (params req) = None ->
      getQuizForBook req
      = ([QCall_getQuizForBook (params req); QCall_getGenericQuiz],
         QResolved getGenericQuiz_result)).
Proof.
  unfold getQuizForBook. simpl.
  destruct (getQuizForBook_result (params req)) as [bookQuiz|]; simpl.
  - split; [by eexists|]. split; [by intros ? [= <-] | done].
  - split; [by eexists|]. split; [done | done].
Qed.

End QuizMaintenance.

Lemma createQuiz_creates_witness :
  AdminFixtures.create (AdminFixtures.quiz_request [Fixtures.question1] (Some "hobbit"))
  = ([QCall_getBook "hobbit"; QCall_isQuestionSchemaValid Fixtures.question1;
      QCall_new_Date;
      QCall_createQuiz {| NewQuiz.questions := [Fixtures.question1];
                          NewQuiz.book_id := Some "hobbit";
                          NewQuiz.date_created := Fixtures.T + 1 |}],
     QResolved {| Quiz._id := "fresh"; Quiz.questions := [Fixtures.question1];
                  Quiz.book_id := Some "hobbit";
                  Quiz.date_created := Fixtures.T + 1 |}).
Proof.
  apply (createQuiz_creates (quizStore := AdminFixtures.store)
           (bookData := Fixtures.books) (questionSchemas := AdminFixtures.schemas)
           (clock := Fixtures.clock_after 0)
           (AdminFixtures.quiz_request [Fixtures.question1] (Some "hobbit"))).
  - intros id [= <-]. by eexists.
  - by repeat constructor.
Defined.


Lemma createQuiz_creates_only_valid_witness :
  Forall (fun question =>
            isQuestionSchemaValid (QuestionSchemas := AdminFixtures.schemas) question
            = None)
    [Fixtures.question1].
Proof.
  apply (createQuiz_creates_only_valid (quizStore := AdminFixtures.store)
           (bookData := Fixtures.books) (questionSchemas := AdminFixtures.schemas)
           (clock := Fixtures.clock_after 0)
           (AdminFixtures.quiz_request [Fixtures.question1] None)
           {| NewQuiz.questions := [Fixtures.question1]; NewQuiz.book_id := None;
              NewQuiz.date_created := Fixtures.T + 1 |}).
  vm_compute. do 2 right. left.
Defined.

Lemma updateQuiz_skips_question_schemas_witness :
  snd (AdminFixtures.update
         {| authToken := Fixtures.admin_token; params := "quiz1";
            body := {| Quiz._id := "quiz1"; Quiz.questions := [AdminFixtures.essay];
                       Quiz.book_id := None; Quiz.date_created := 0 |} |})
  = QResolved {| Quiz._id := "quiz1"; Quiz.questions := [AdminFixtures.essay];
                 Quiz.book_id := None; Quiz.date_created := 0 |}.
Proof.
  apply (updateQuiz_skips_question_schemas (quizStore := AdminFixtures.store)
           (bookData := Fixtures.books) (questionSchemas := AdminFixtures.schemas)
           (clock := Fixtures.clock_after 0)
           {| authToken := Fixtures.admin_token; params := "quiz1";
              body := {| Quiz._id := "quiz1"; Quiz.questions := [AdminFixtures.essay];
                         Quiz.book_id := None; Quiz.date_created := 0 |} |}
           (AdminFixtures.quiz_request [AdminFixtures.essay] None)
           AdminFixtures.essay "unknown type").
  - reflexivity.
  - reflexivity.
  - intros id Hid. discriminate Hid.
  - left.
  - reflexivity.
  - reflexivity.
Defined.

Lemma quiz_not_found_witness :
  deleteQuiz (quizStore := AdminFixtures.store)
    {| authToken := Fixtures.admin_token; params := "quiz9"; body := tt |}
  = ([QCall_deleteQuiz "quiz9"],
     QRejected (QuizResourceNotFoundError NoQuizWasDeleted)).
Proof.
  apply (proj1 (proj2 (quiz_not_found (quizStore := AdminFixtures.store)
                         (bookData := Fixtures.books)
                         {| authToken := Fixtures.admin_token; params := "quiz9";
                            body := Fixtures.quiz1 |}
                         {| authToken := Fixtures.admin_token; params := "quiz9";
                            body := tt |}))).
  reflexivity.
Defined.

Lemma getQuizForBook_falls_back_witness :
  getQuizForBook (quizStore := AdminFixtures.store)
    {| authToken := Fixtures.alice_token; params := "silmarillion"; body := tt |}
  = ([QCall_getQuizForBook "silmarillion"; QCall_getGenericQuiz], QResolved None).
Proof.
  apply (proj2 (proj2 (getQuizForBook_falls_back (quizStore := AdminFixtures.store)
                         {| authToken := Fixtures.alice_token;
                            params := "silmarillion"; body := tt |}))).
  reflexivity.
Defined.
